(** * Asset generation for a social-media post: hashtags and cover image

    A shallow embedding of [generation/post_assets.py]:
    [_build_hashtag_prompt], [_parse_hashtags], [generate_hashtags] and
    [generate_post_image], together with the part of the Python runtime
    they rest on (text methods, dictionaries, [json.loads], exceptions,
    temporary files). *)

From Stdlib Require Import ZArith NArith List String Ascii Bool Lia.
From Stdlib Require Import SpecFloat.
From stdpp Require Import base option list gmap.

Local Open Scope Z_scope.

(** ** Python text

    A Python [str] is a sequence of Unicode code points.  Code points are
    natural numbers; [lit] reads a literal written with 8-bit characters. *)

Abbreviation str := (list N).
Abbreviation bytes := (list N).

Fixpoint lit (s : string) : str :=
  match s with
  | EmptyString => []
  | String a s' => N_of_ascii a :: lit s'
  end.

Arguments lit s : simpl never.

(** The double quote and the line feed, which literals here do not spell. *)
Definition dq : str := [34%N].
Definition nl : str := [10%N].
Definition quoted (s : string) : str := dq ++ lit s ++ dq.

Definition between (lo hi c : N) : bool := (lo <=? c)%N && (c <=? hi)%N.

(** [str.isspace] on one code point: the characters [str.strip] removes. *)
Definition isspace (c : N) : bool :=
  between 9 13 c || between 28 32 c || (c =? 133)%N || (c =? 160)%N
  || (c =? 5760)%N || between 8192 8202 c || (c =? 8232)%N || (c =? 8233)%N
  || (c =? 8239)%N || (c =? 8287)%N || (c =? 12288)%N.

Fixpoint lstrip_by (p : N -> bool) (s : str) : str :=
  match s with
  | [] => []
  | c :: s' => if p c then lstrip_by p s' else s
  end.

Definition rstrip_by (p : N -> bool) (s : str) : str :=
  rev (lstrip_by p (rev s)).

(** [s.strip()] *)
Definition strip (s : str) : str := rstrip_by isspace (lstrip_by isspace s).

(** [s.lstrip(chars)]: leading characters that occur in [chars] go. *)
Definition lstrip (s chars : str) : str :=
  lstrip_by (fun c => existsb (N.eqb c) chars) s.

(** [s.startswith(prefix)] *)
Fixpoint startswith (s prefix : str) {struct prefix} : bool :=
  match prefix, s with
  | [], _ => true
  | _ :: _, [] => false
  | p :: prefix', c :: s' => (c =? p)%N && startswith s' prefix'
  end.

(** [s.replace(old, new)], all occurrences from the left, not overlapping,
    for a non-empty [old]; [fuel] bounds the characters still to scan. *)
Fixpoint replace_from (fuel : nat) (s old new : str) : str :=
  match fuel with
  | O => s
  | S fuel' =>
      match s with
      | [] => []
      | c :: s' =>
          if startswith s old
          then new ++ replace_from fuel' (skipn (length old) s) old new
          else c :: replace_from fuel' s' old new
      end
  end.

Definition replace (s old new : str) : str :=
  replace_from (length s) s old new.

(** [sep.join(parts)] *)
Fixpoint join (sep : str) (parts : list str) : str :=
  match parts with
  | [] => []
  | [p] => p
  | p :: rest => p ++ sep ++ join sep rest
  end.

(** [s.find(sub)]: the lowest index where [sub] starts, or -1. *)
Fixpoint find_from (i : Z) (s sub : str) : Z :=
  if startswith s sub then i
  else match s with
       | [] => -1
       | _ :: s' => find_from (i + 1) s' sub
       end.

Definition find (s sub : str) : Z := find_from 0 s sub.

(** [s.rfind(sub)]: the highest index where [sub] starts, or -1. *)
Fixpoint rfind_from (i : Z) (s sub : str) : Z :=
  match s with
  | [] => if startswith [] sub then i else -1
  | _ :: s' =>
      let later := rfind_from (i + 1) s' sub in
      if later =? -1 then (if startswith s sub then i else -1) else later
  end.

Definition rfind (s sub : str) : Z := rfind_from 0 s sub.

(** [s[i:j]] with Python's treatment of negative and oversized bounds. *)
Definition clamp_index (len i : Z) : Z :=
  if i <? 0 then Z.max (i + len) 0 else Z.min i len.

Definition slice (s : str) (i j : Z) : str :=
  let len := Z.of_nat (length s) in
  let a := clamp_index len i in
  let b := clamp_index len j in
  firstn (Z.to_nat (b - a)) (skipn (Z.to_nat a) s).

(** ** Python values and exceptions *)

(** The values [json.loads] builds, which are also the values the
    dictionaries of this module hold.  A [dict] keeps insertion order. *)
#[warnings="-register-all"]
Inductive pyval : Type :=
  | PyNone
  | PyBool (b : bool)
  | PyInt (z : Z)
  | PyFloat (f : spec_float)
  | PyStr (s : str)
  | PyList (items : list pyval)
  | PyDict (entries : list (str * pyval)).

Abbreviation dict := (list (str * pyval)).

(** An exception of a class derived from [Exception]; [exn_text] is what
    [str(exc)] gives. *)
Record exn : Type := Exception { exn_class : string; exn_text : str }.

Inductive result (A : Type) : Type :=
  | Ok (a : A)
  | Raise (e : exn).
Arguments Ok {A} a.
Arguments Raise {A} e.

Definition bind_result {A B} (r : result A) (k : A -> result B) : result B :=
  match r with
  | Ok a => k a
  | Raise e => Raise e
  end.

Declare Scope py_scope.
Delimit Scope py_scope with py.
Notation "'let*' x ':=' r 'in' k" := (bind_result r (fun x => k))
  (at level 10, x name, r at level 100, k at level 200) : py_scope.

Definition str_eqb (a b : str) : bool := bool_decide (a = b).

(** The value a dictionary holds under [key], if any. *)
Fixpoint dict_lookup (d : dict) (key : str) : option pyval :=
  match d with
  | [] => None
  | (k, v) :: d' => if str_eqb k key then Some v else dict_lookup d' key
  end.

(** [d.get(key, default)] *)
Definition dict_get (d : dict) (key : str) (default : pyval) : pyval :=
  match dict_lookup d key with
  | Some v => v
  | None => default
  end.

(** [d[key] = v]: an existing key keeps its place and takes the new value. *)
Fixpoint dict_set (d : dict) (key : str) (v : pyval) : dict :=
  match d with
  | [] => [(key, v)]
  | (k, v0) :: d' =>
      if str_eqb k key then (k, v) :: d' else (k, v0) :: dict_set d' key v
  end.

Definition float_is_zero (f : spec_float) : bool :=
  match f with
  | S754_zero _ => true
  | _ => false
  end.

(** Truth value of an object, as [or], [not] and [if] test it. *)
Definition truthy (v : pyval) : bool :=
  match v with
  | PyNone => false
  | PyBool b => b
  | PyInt z => negb (z =? 0)
  | PyFloat f => negb (float_is_zero f)
  | PyStr s => negb (bool_decide (s = []))
  | PyList l => match l with [] => false | _ => true end
  | PyDict d => match d with [] => false | _ => true end
  end.

(** [a or b] *)
Definition py_or (a b : pyval) : pyval := if truthy a then a else b.

Definition type_name (v : pyval) : string :=
  match v with
  | PyNone => "NoneType"
  | PyBool _ => "bool"
  | PyInt _ => "int"
  | PyFloat _ => "float"
  | PyStr _ => "str"
  | PyList _ => "list"
  | PyDict _ => "dict"
  end.

Definition AttributeError (v : pyval) (attr : string) : exn :=
  Exception "AttributeError"
    (lit "'" ++ lit (type_name v) ++ lit "' object has no attribute '"
       ++ lit attr ++ lit "'").

(** The float [0.0]. *)
Definition float_zero : spec_float := S754_zero false.

(** ** The hashtag pipeline *)

Definition hash : str := lit "#".
Definition space : str := lit " ".

(** [_build_hashtag_prompt] *)
Definition _build_hashtag_prompt (post topic business_objective : str) : str :=
  lit "Create 8 LinkedIn hashtags for this post." ++ nl
  ++ lit "Rules:" ++ nl
  ++ lit "- Return JSON only." ++ nl
  ++ lit "- Schema: {" ++ quoted "hashtags" ++ lit ": [" ++ quoted "#tag1"
  ++ lit ", " ++ quoted "#tag2" ++ lit "]}" ++ nl
  ++ lit "- Hashtags must be relevant to SMEs, AI implementation, and business outcomes."
  ++ nl
  ++ lit "- No generic spam tags like #success or #motivation." ++ nl ++ nl
  ++ lit "Topic: " ++ topic ++ nl
  ++ lit "Business objective: " ++ business_objective ++ nl ++ nl
  ++ lit "Post:" ++ nl ++ post ++ nl.

(** One turn of the loop of [_parse_hashtags], from the text of the tag on:
    [None] is the [continue] of a blank tag, [Some t] the tag appended. *)
Definition clean_tag (tag_text : str) : option str :=
  let tag_text := strip tag_text in
  if negb (truthy (PyStr tag_text)) then None
  else
    let tag_text :=
      if negb (startswith tag_text hash)
      then hash ++ lstrip tag_text hash
      else tag_text in
    Some (replace tag_text space []).

Section Extractor.

(** [json.loads] on text; [None] when it raises. *)
Variable json_loads : str -> option pyval.

(** [str(x)] for an object that is not a [str]. *)
Variable str_of_object : pyval -> result str.

(** [str(x)] *)
Definition py_str (v : pyval) : result str :=
  match v with
  | PyStr s => Ok s
  | _ => str_of_object v
  end.

(** [for tag in tags: ...], with [cleaned] as built so far. *)
Fixpoint clean_loop (tags : list pyval) (cleaned : list str)
  : result (list str) :=
  match tags with
  | [] => Ok cleaned
  | tag :: rest =>
      (let* s := py_str tag in
       match clean_tag s with
       | None => clean_loop rest cleaned
       | Some t => clean_loop rest (cleaned ++ [t])
       end)%py
  end.

(** [_parse_hashtags] from [tags = payload.get("hashtags", [])] on. *)
Definition tags_of_payload (payload : pyval) : result str :=
  match payload with
  | PyDict d =>
      match dict_get d (lit "hashtags") (PyList []) with
      | PyList tags =>
          (let* cleaned := clean_loop tags [] in
           Ok (join space (firstn 10 cleaned)))%py
      | _ => Ok []
      end
  | _ => Raise (AttributeError payload "get")
  end.

(** [_parse_hashtags], from the stripped text on. *)
Definition parse_text (text : str) : result str :=
  if negb (truthy (PyStr text)) then Ok []
  else
    match json_loads text with
    | Some payload => tags_of_payload payload
    | None =>
        let start := find text (lit "{") in
        let end_ := rfind text (lit "}") in
        if (start =? -1) || (end_ =? -1) || (end_ <=? start) then Ok text
        else
          match json_loads (slice text start (end_ + 1)) with
          | Some payload => tags_of_payload payload
          | None => Ok text
          end
    end.

(** [_parse_hashtags].  The argument is what the caller passes, an object
    of any type: [(raw_text or "").strip()] raises on an object that is
    true and has no [strip]. *)
Definition _parse_hashtags (raw_text : pyval) : result str :=
  match py_or raw_text (PyStr []) with
  | PyStr s => parse_text (strip s)
  | v => Raise (AttributeError v "strip")
  end.

(** [generation.llm_client.generate_completion]: the completion client,
    which returns a mapping or raises. *)
Variable generate_completion : list pyval -> dict -> result dict.

Definition hashtag_messages (post topic business_objective : str)
  : list pyval :=
  [ PyDict [ (lit "role", PyStr (lit "system"));
             (lit "content",
              PyStr (lit "You create specific, SME-relevant LinkedIn hashtags. Return JSON only.")) ];
    PyDict [ (lit "role", PyStr (lit "user"));
             (lit "content",
              PyStr (_build_hashtag_prompt post topic business_objective)) ] ].

(** The [llm] entry of the metadata of [generate_hashtags]. *)
Definition llm_entry (llm_result : dict) : dict :=
  [ (lit "model", dict_get llm_result (lit "model") PyNone);
    (lit "attempts", dict_get llm_result (lit "attempts") PyNone);
    (lit "usage", dict_get llm_result (lit "usage") (PyDict []));
    (lit "length", dict_get llm_result (lit "length") (PyDict []));
    (lit "estimated_cost_usd",
     dict_get llm_result (lit "estimated_cost_usd") (PyFloat float_zero));
    (lit "error", dict_get llm_result (lit "error") PyNone) ].

(** [generate_hashtags] *)
Definition generate_hashtags (post topic business_objective : str)
    (config : dict) : result (str * dict) :=
  (let* llm_result :=
     generate_completion (hashtag_messages post topic business_objective)
       config in
   let* hashtags :=
     _parse_hashtags (dict_get llm_result (lit "content") (PyStr [])) in
   Ok (hashtags, [ (lit "llm", PyDict (llm_entry llm_result)) ]))%py.

End Extractor.

(** ** [json.loads]

    The decoder of the standard library as its scanner works through the
    text: [scanstring], [JSONObject], [JSONArray] and [scan_once], then
    [decode], which refuses anything but white space after the value.  The
    interpreter's limit on nesting depth is not part of this model; the
    results on the pipeline above hold for every decoder. *)
Module Json.

Definition is_ws (c : N) : bool :=
  (c =? 32)%N || (c =? 9)%N || (c =? 10)%N || (c =? 13)%N.

Definition skip_ws (s : str) : str := lstrip_by is_ws s.

Definition is_digit (c : N) : bool := between 48 57 c.

Definition hex_value (c : N) : option N :=
  if between 48 57 c then Some (c - 48)%N
  else if between 97 102 c then Some (c - 87)%N
  else if between 65 70 c then Some (c - 55)%N
  else None.

(** The four hexadecimal digits of a [\uXXXX] escape. *)
Definition decode_uXXXX (s : str) : option (N * str) :=
  match s with
  | a :: b :: c :: d :: rest =>
      match hex_value a, hex_value b, hex_value c, hex_value d with
      | Some x, Some y, Some z, Some w =>
          Some (((x * 16 + y) * 16 + z) * 16 + w, rest)%N
      | _, _, _, _ => None
      end
  | _ => None
  end.

(** The table of one-letter escapes. *)
Definition backslash (c : N) : option N :=
  if (c =? 34)%N then Some 34%N          (* quote *)
  else if (c =? 92)%N then Some 92%N     (* backslash *)
  else if (c =? 47)%N then Some 47%N     (* solidus *)
  else if (c =? 98)%N then Some 8%N      (* b *)
  else if (c =? 102)%N then Some 12%N    (* f *)
  else if (c =? 110)%N then Some 10%N    (* n *)
  else if (c =? 114)%N then Some 13%N    (* r *)
  else if (c =? 116)%N then Some 9%N     (* t *)
  else None.

(** [scanstring], after the opening quote, strict: the text of the string
    and what follows its closing quote. *)
Fixpoint scanstring (fuel : nat) (s : str) (chunks : str)
  : option (str * str) :=
  match fuel with
  | O => None
  | S fuel' =>
      match s with
      | [] => None
      | c :: s1 =>
          if (c =? 34)%N then Some (chunks, s1)
          else if (c =? 92)%N then
            match s1 with
            | [] => None
            | esc :: s2 =>
                if (esc =? 117)%N then
                  match decode_uXXXX s2 with
                  | None => None
                  | Some (uni, s3) =>
                      if between 55296 56319 uni && startswith s3 [92; 117]%N
                      then
                        match decode_uXXXX (skipn 2 s3) with
                        | None => None
                        | Some (uni2, s4) =>
                            if between 56320 57343 uni2
                            then scanstring fuel' s4
                                   (chunks ++ [65536 + ((uni - 55296) * 1024 + (uni2 - 56320))])%N
                            else scanstring fuel' s3 (chunks ++ [uni])
                        end
                      else scanstring fuel' s3 (chunks ++ [uni])
                  end
                else
                  match backslash esc with
                  | None => None
                  | Some ch => scanstring fuel' s2 (chunks ++ [ch])
                  end
            end
          else if (c <=? 31)%N then None
          else scanstring fuel' s1 (chunks ++ [c])
      end
  end.

(** The longest run of decimal digits at the head of the text. *)
Fixpoint span_digits (s : str) : str * str :=
  match s with
  | c :: s' =>
      if is_digit c
      then let '(ds, rest) := span_digits s' in (c :: ds, rest)
      else ([], s)
  | [] => ([], [])
  end.

(** Value of a run of decimal digits, most significant first. *)
Definition digits_value (ds : str) : Z :=
  fold_left (fun acc c => acc * 10 + (Z.of_N c - 48)) ds 0.

(** The number pattern of the scanner: sign and integer part, optional
    fraction digits, optional exponent, and the text that follows. *)
Definition match_number (s : str)
  : option (bool * str * option str * option Z * str) :=
  let '(neg, s1) :=
    match s with
    | c :: s' => if (c =? 45)%N then (true, s') else (false, s)
    | [] => (false, s)
    end in
  match s1 with
  | c :: s2 =>
      if is_digit c then
        let '(int_digits, s3) :=
          if (c =? 48)%N then ([c], s2) else span_digits s1 in
        let '(frac, s4) :=
          match s3 with
          | p :: t =>
              if (p =? 46)%N then
                match span_digits t with
                | ([], _) => (None, s3)
                | (fd, rest) => (Some fd, rest)
                end
              else (None, s3)
          | [] => (None, s3)
          end in
        let '(exp, s5) :=
          match s4 with
          | e :: t =>
              if (e =? 101)%N || (e =? 69)%N then
                let '(eneg, t') :=
                  match t with
                  | sg :: t1 =>
                      if (sg =? 45)%N then (true, t1)
                      else if (sg =? 43)%N then (false, t1)
                      else (false, t)
                  | [] => (false, t)
                  end in
                match span_digits t' with
                | ([], _) => (None, s4)
                | (ed, rest) =>
                    (Some (if eneg then - digits_value ed else digits_value ed),
                     rest)
                end
              else (None, s4)
          | [] => (None, s4)
          end in
        Some (neg, int_digits, frac, exp, s5)
      else None
  | [] => None
  end.

(** Binary64: 53 bits of precision, exponents below 1024. *)
Definition prec : Z := 53.
Definition emax : Z := 1024.

(** The double nearest to [(-1)^neg * m * 10^e10], ties to even: what
    [float] makes of a decimal numeral. *)
Definition float_of_decimal (neg : bool) (m e10 : Z) : spec_float :=
  match m with
  | Z0 => S754_zero neg
  | Zpos p =>
      if 0 <=? e10
      then binary_normalize prec emax
             (if neg then - (m * 10 ^ e10) else m * 10 ^ e10) 0 neg
      else SFdiv prec emax (S754_finite neg p 0)
             (S754_finite false (Z.to_pos (10 ^ (- e10))) 0)
  | Zneg _ => S754_nan
  end.

(** [sys.int_info.default_max_str_digits]: [int] refuses longer numerals. *)
Definition max_str_digits : nat := 4300.

Definition number_value (neg : bool) (int_digits : str)
    (frac : option str) (exp : option Z) : option pyval :=
  match frac, exp with
  | None, None =>
      if (max_str_digits <? length int_digits)%nat then None
      else Some (PyInt (if neg then - digits_value int_digits
                        else digits_value int_digits))
  | _, _ =>
      let fd := default [] frac in
      Some (PyFloat
              (float_of_decimal neg (digits_value (int_digits ++ fd))
                 (default 0 exp - Z.of_nat (length fd))))
  end.

Definition float_nan : spec_float := S754_nan.

(** What [scan_once] does on a text that opens neither a string, an
    object nor an array. *)
Definition scan_atom (s : str) : option (pyval * str) :=
  if startswith s (lit "null") then Some (PyNone, skipn 4 s)
  else if startswith s (lit "true") then Some (PyBool true, skipn 4 s)
  else if startswith s (lit "false") then Some (PyBool false, skipn 5 s)
  else
    match match_number s with
    | Some (neg, int_digits, frac, exp, rest) =>
        match number_value neg int_digits frac exp with
        | Some v => Some (v, rest)
        | None => None
        end
    | None =>
        if startswith s (lit "NaN") then Some (PyFloat float_nan, skipn 3 s)
        else if startswith s (lit "Infinity")
        then Some (PyFloat (S754_infinity false), skipn 8 s)
        else if startswith s (lit "-Infinity")
        then Some (PyFloat (S754_infinity true), skipn 9 s)
        else None
    end.

(** [scan_once] with [JSONArray] and [JSONObject]; the array and the
    object are entered after their opening bracket.  [array_items] and
    [object_members] are the loops of the two, the second entered after
    the opening quote of a key.  Every call takes one unit of [fuel]. *)
Fixpoint scan_once (fuel : nat) (s : str) {struct fuel}
  : option (pyval * str) :=
  match fuel with
  | O => None
  | S fuel' =>
      match s with
      | [] => None
      | c :: s' =>
          if (c =? 34)%N then
            match scanstring (S (length s')) s' [] with
            | Some (text, rest) => Some (PyStr text, rest)
            | None => None
            end
          else if (c =? 123)%N then JSONObject fuel' s'
          else if (c =? 91)%N then JSONArray fuel' s'
          else scan_atom s
      end
  end
with JSONArray (fuel : nat) (s : str) {struct fuel}
  : option (pyval * str) :=
  match fuel with
  | O => None
  | S fuel' =>
      match skip_ws s with
      | c :: rest =>
          if (c =? 93)%N then Some (PyList [], rest)
          else array_items fuel' (c :: rest) []
      | [] => array_items fuel' [] []
      end
  end
with array_items (fuel : nat) (s : str) (values : list pyval) {struct fuel}
  : option (pyval * str) :=
  match fuel with
  | O => None
  | S fuel' =>
      match scan_once fuel' s with
      | None => None
      | Some (value, rest) =>
          let values := values ++ [value] in
          match skip_ws rest with
          | c :: rest' =>
              if (c =? 93)%N then Some (PyList values, rest')
              else if (c =? 44)%N
              then array_items fuel' (skip_ws rest') values
              else None
          | [] => None
          end
      end
  end
with JSONObject (fuel : nat) (s : str) {struct fuel}
  : option (pyval * str) :=
  match fuel with
  | O => None
  | S fuel' =>
      match skip_ws s with
      | c :: rest =>
          if (c =? 125)%N then Some (PyDict [], rest)
          else if (c =? 34)%N then object_members fuel' rest []
          else None
      | [] => None
      end
  end
with object_members (fuel : nat) (s : str) (pairs : dict) {struct fuel}
  : option (pyval * str) :=
  match fuel with
  | O => None
  | S fuel' =>
      match scanstring (S (length s)) s [] with
      | None => None
      | Some (key, rest) =>
          match skip_ws rest with
          | colon :: rest1 =>
              if (colon =? 58)%N then
                match scan_once fuel' (skip_ws rest1) with
                | None => None
                | Some (value, rest2) =>
                    let pairs := dict_set pairs key value in
                    match skip_ws rest2 with
                    | c :: rest3 =>
                        if (c =? 125)%N then Some (PyDict pairs, rest3)
                        else if (c =? 44)%N then
                          match skip_ws rest3 with
                          | q :: rest4 =>
                              if (q =? 34)%N
                              then object_members fuel' rest4 pairs
                              else None
                          | [] => None
                          end
                        else None
                    | [] => None
                    end
                end
              else None
          | [] => None
          end
      end
  end.

(** [json.loads(s)] for a [str]: [None] when it raises. *)
Definition loads (s : str) : option pyval :=
  if startswith s [65279%N] then None
  else
    match scan_once (4 * length s + 4) (skip_ws s) with
    | Some (obj, rest) =>
        match skip_ws rest with
        | [] => Some obj
        | _ :: _ => None
        end
    | None => None
    end.

End Json.

(** ** [str] of the scalars of JSON *)

Fixpoint uint_digits (u : Decimal.uint) : str :=
  match u with
  | Decimal.Nil => []
  | Decimal.D0 u' => 48%N :: uint_digits u'
  | Decimal.D1 u' => 49%N :: uint_digits u'
  | Decimal.D2 u' => 50%N :: uint_digits u'
  | Decimal.D3 u' => 51%N :: uint_digits u'
  | Decimal.D4 u' => 52%N :: uint_digits u'
  | Decimal.D5 u' => 53%N :: uint_digits u'
  | Decimal.D6 u' => 54%N :: uint_digits u'
  | Decimal.D7 u' => 55%N :: uint_digits u'
  | Decimal.D8 u' => 56%N :: uint_digits u'
  | Decimal.D9 u' => 57%N :: uint_digits u'
  end.

(** The decimal numeral of an integer. *)
Definition decimal (z : Z) : str :=
  match z with
  | Z0 => lit "0"
  | Zpos p => uint_digits (Pos.to_uint p)
  | Zneg p => lit "-" ++ uint_digits (Pos.to_uint p)
  end.

(** [str(x)] for [None], a truth value or an integer.  The text of a float
    or of a container is outside this model: it is answered with an
    exception, and nothing below feeds one to it. *)
Definition str_of_scalar (v : pyval) : result str :=
  match v with
  | PyNone => Ok (lit "None")
  | PyBool true => Ok (lit "True")
  | PyBool false => Ok (lit "False")
  | PyInt z =>
      if (Json.max_str_digits <? length (decimal (Z.abs z)))%nat
      then Raise (Exception "ValueError"
                    (lit "Exceeds the limit (4300 digits) for integer string conversion"))
      else Ok (decimal z)
  | PyStr s => Ok s
  | _ => Raise (Exception "NotImplementedError" (lit "text of a float or a container"))
  end.

(** ** The image pipeline *)

(** One item of the response of the image client, with its [b64_json]
    attribute: [None] when the attribute is missing or holds [None]. *)
Record Image : Type := { b64_json : option str }.

(** The response of the image client: [data] is a list of items or [None]. *)
Record ImagesResponse : Type := { data : option (list Image) }.

(** The client object [OpenAI(api_key=..., timeout=...)] builds. *)
Record Client : Type := { client_api_key : pyval; client_timeout : spec_float }.

(** The arguments of one call of [client.images.generate]. *)
Record ImageRequest : Type :=
  { req_model : pyval; req_prompt : str; req_size : pyval }.

(** What the operation can read and change: the environment variables, the
    files by path, and the calls made to the image service so far. *)
Record World : Type :=
  { environ : gmap str str;
    files : gmap str bytes;
    requests : list ImageRequest }.

(** What lies outside this module and answers it. *)
Record Platform : Type :=
  { (** [float(s)] for a [str] *)
    float_of_text : str -> result spec_float;
    (** [base64.b64decode(s)] for a [str] *)
    b64decode : str -> result bytes;
    (** the exception the constructor [OpenAI] raises, if it does *)
    openai_init : pyval -> spec_float -> option exn;
    (** the answer of the image service to a request *)
    images_generate : Client -> ImageRequest -> result ImagesResponse;
    (** [tempfile.gettempdir()] *)
    gettempdir : str;
    (** the random names the temporary-file module draws, in turn *)
    random_names : list str;
    (** the failure of creating a file that does not exist yet, if any *)
    create_error : str -> option exn;
    (** the failure of writing the bytes to the file, if any, with the
        number of bytes that reached the file before it *)
    write_error : str -> bytes -> option (exn * nat) }.

(** A computation on the world that returns or raises. *)
Definition M (A : Type) : Type := World -> World * result A.

Definition ret {A} (a : A) : M A := fun w => (w, Ok a).
Definition raise {A} (e : exn) : M A := fun w => (w, Raise e).
Definition lift {A} (r : result A) : M A := fun w => (w, r).

Definition bind {A B} (m : M A) (k : A -> M B) : M B :=
  fun w =>
    match m w with
    | (w', Ok a) => k a w'
    | (w', Raise e) => (w', Raise e)
    end.

(** [try: body except Exception as exc: handler] *)
Definition try_except {A} (body : M A) (handler : exn -> M A) : M A :=
  fun w =>
    match body w with
    | (w', Ok a) => (w', Ok a)
    | (w', Raise exc) => handler exc w'
    end.

Declare Scope world_scope.
Delimit Scope world_scope with world.
Notation "'do' x '<-' m ';' k" := (bind m (fun x => k))
  (at level 10, x name, m at level 100, k at level 200) : world_scope.

(** [os.getenv(name)] *)
Definition getenv (name : str) : M pyval :=
  fun w =>
    (w, Ok match environ w !! name with
           | Some v => PyStr v
           | None => PyNone
           end).

Definition TypeError (text : str) : exn := Exception "TypeError" text.

(** [os.path.join(dir, name)] for a relative [name], POSIX. *)
Definition path_join (dir name : str) : str :=
  match last dir with
  | None => name
  | Some c => if (c =? 47)%N then dir ++ name else dir ++ lit "/" ++ name
  end.

(** [items[0]] for the [data] of a response. *)
Definition first_item (d : option (list Image)) : result Image :=
  match d with
  | None => Raise (TypeError (lit "'NoneType' object is not subscriptable"))
  | Some [] => Raise (Exception "IndexError" (lit "list index out of range"))
  | Some (item :: _) => Ok item
  end.

Section ImagePipeline.

Variable P : Platform.

(** [float(x)] *)
Definition py_float (v : pyval) : result spec_float :=
  let of_int (z : Z) :=
    match binary_normalize Json.prec Json.emax z 0 false with
    | S754_infinity _ =>
        Raise (Exception "OverflowError" (lit "int too large to convert to float"))
    | f => Ok f
    end in
  match v with
  | PyFloat f => Ok f
  | PyInt z => of_int z
  | PyBool b => of_int (Z.b2z b)
  | PyStr s => float_of_text P s
  | _ =>
      Raise (TypeError
               (lit "float() argument must be a string or a real number, not '"
                  ++ lit (type_name v) ++ lit "'"))
  end.

(** [OpenAI(api_key=api_key, timeout=timeout)] *)
Definition OpenAI (api_key : pyval) (timeout : spec_float) : M Client :=
  match openai_init P api_key timeout with
  | Some e => raise e
  | None => ret {| client_api_key := api_key; client_timeout := timeout |}
  end.

(** [client.images.generate(model=..., prompt=..., size=...)]: the call is
    recorded, whatever its outcome. *)
Definition client_images_generate (client : Client) (req : ImageRequest)
  : M ImagesResponse :=
  fun w =>
    ({| environ := environ w; files := files w;
        requests := requests w ++ [req] |},
     images_generate P client req).

(** The loop of the temporary-file module: the first drawn name whose
    path is free is created, exclusively. *)
Fixpoint mkstemp_inner (existing : gmap str bytes) (dir pre suf : str)
    (names : list str) : result str :=
  match names with
  | [] =>
      Raise (Exception "FileExistsError"
               (lit "[Errno 17] No usable temporary file name found"))
  | name :: rest =>
      let file := path_join dir (pre ++ name ++ suf) in
      match existing !! file with
      | Some _ => mkstemp_inner existing dir pre suf rest
      | None =>
          match create_error P file with
          | Some e => Raise e
          | None => Ok file
          end
      end
  end.

Definition set_file (path : str) (content : bytes) : M unit :=
  fun w =>
    ({| environ := environ w; files := <[path := content]> (files w);
        requests := requests w |}, Ok tt).

(** [with tempfile.NamedTemporaryFile(prefix=..., suffix=..., delete=False)
    as temp_file: temp_file.write(content); path = temp_file.name]: the
    file is created empty, written and closed; it stays. *)
Definition write_named_temporary_file (pre suf : str) (content : bytes)
  : M str :=
  fun w =>
    match mkstemp_inner (files w) (gettempdir P) pre suf (random_names P) with
    | Raise e => (w, Raise e)
    | Ok path =>
        match write_error P path content with
        | Some (e, k) =>
            (do _ <- set_file path (firstn k content); raise e)%world w
        | None =>
            (do _ <- set_file path content; ret path)%world w
        end
    end.

Definition image_prompt (post topic : str) : str :=
  lit "Create a premium, professional LinkedIn cover-style image for a business audience." ++ nl
  ++ lit "Art direction:" ++ nl
  ++ lit "- Executive editorial style, modern and minimal." ++ nl
  ++ lit "- Clean composition with a clear focal point and strong visual hierarchy." ++ nl
  ++ lit "- Sophisticated corporate palette (deep blue, slate, white, subtle accent), high contrast." ++ nl
  ++ lit "- Subtle data/operations motifs (workflow lines, dashboards, process blocks) without clutter." ++ nl
  ++ lit "- Plenty of negative space suitable for social media crops." ++ nl
  ++ lit "- No logos, no brand marks, no watermarks, no UI screenshots." ++ nl
  ++ lit "- Avoid busy backgrounds, cartoon style, and stock-photo look." ++ nl
  ++ lit "- Do not render readable text inside the image." ++ nl
  ++ lit "Output quality:" ++ nl
  ++ lit "- Crisp, polished, presentation-ready, suitable for LinkedIn post visuals." ++ nl
  ++ lit "Topic: " ++ topic ++ nl
  ++ lit "Post context: " ++ post ++ nl.

(** The body of the [try] of [generate_post_image]. *)
Definition image_attempt (client : Client) (prompt : str)
    (image_model image_size : pyval) : M (option str * dict) :=
  (do response <-
     client_images_generate client
       {| req_model := image_model; req_prompt := prompt;
          req_size := image_size |};
   do item <- lift (first_item (data response));
   match b64_json item with
   | Some (c :: b64_rest) =>
       do image_bytes <- lift (b64decode P (c :: b64_rest));
       do image_path <-
         write_named_temporary_file (lit "pbcg_") (lit ".png") image_bytes;
       ret (Some image_path,
            [ (lit "model", image_model); (lit "size", image_size);
              (lit "path", PyStr image_path) ])
   | _ =>
       ret (None,
            [ (lit "error", PyStr (lit "Image response missing b64_json"));
              (lit "model", image_model) ])
   end)%world.

(** [generate_post_image] *)
Definition generate_post_image (post topic : str) (config : dict)
  : M (option str * dict) :=
  (do api_key <-
     (let configured := dict_get config (lit "api_key") PyNone in
      if truthy configured then ret configured
      else getenv (lit "OPENAI_API_KEY"));
   if negb (truthy api_key)
   then ret (None, [ (lit "error", PyStr (lit "OPENAI_API_KEY not set")) ])
   else
     let image_model :=
       dict_get config (lit "image_model") (PyStr (lit "gpt-image-1")) in
     let image_size :=
       dict_get config (lit "image_size") (PyStr (lit "1024x1024")) in
     do timeout <- lift (py_float (dict_get config (lit "timeout") (PyInt 60)));
     do client <- OpenAI api_key timeout;
     let prompt := image_prompt post topic in
     try_except
       (image_attempt client prompt image_model image_size)
       (fun exc =>
          ret (None,
               [ (lit "error", PyStr (exn_text exc));
                 (lit "model", image_model); (lit "size", image_size) ])))%world.

End ImagePipeline.

(** ** [base64.b64decode]

    The decoder of the standard library in its default, lenient mode:
    characters outside the alphabet are skipped, and a complete run of
    padding ends the data. *)
Module Base64.

Definition index (c : N) : option Z :=
  if between 65 90 c then Some (Z.of_N c - 65)
  else if between 97 122 c then Some (Z.of_N c - 71)
  else if between 48 57 c then Some (Z.of_N c + 4)
  else if (c =? 43)%N then Some 62
  else if (c =? 47)%N then Some 63
  else None.

(** State of the loop: position in the group of four, bits left over,
    padding characters seen in a row, data characters seen in all. *)
Fixpoint a2b_loop (s : str) (quad_pos : nat) (leftchar : Z) (pads : nat)
    (count : nat) (out : bytes) : result bytes :=
  match s with
  | [] =>
      match quad_pos with
      | O => Ok out
      | 1%nat =>
          Raise (Exception "binascii.Error"
                   (lit "Invalid base64-encoded string: number of data characters ("
                      ++ decimal (Z.of_nat count)
                      ++ lit ") cannot be 1 more than a multiple of 4"))
      | _ => Raise (Exception "binascii.Error" (lit "Incorrect padding"))
      end
  | c :: s' =>
      if (c =? 61)%N then
        if (2 <=? quad_pos)%nat then
          if (4 <=? quad_pos + S pads)%nat then Ok out
          else a2b_loop s' quad_pos leftchar (S pads) count out
        else a2b_loop s' quad_pos leftchar pads count out
      else
        match index c with
        | None => a2b_loop s' quad_pos leftchar pads count out
        | Some v =>
            match quad_pos with
            | O => a2b_loop s' 1 v 0 (S count) out
            | 1%nat =>
                a2b_loop s' 2 (Z.land v 15) 0 (S count)
                  (out ++ [Z.to_N (Z.lor (Z.shiftl leftchar 2) (Z.shiftr v 4))])
            | 2%nat =>
                a2b_loop s' 3 (Z.land v 3) 0 (S count)
                  (out ++ [Z.to_N (Z.lor (Z.shiftl leftchar 4) (Z.shiftr v 2))])
            | _ =>
                a2b_loop s' 0 0 0 (S count)
                  (out ++ [Z.to_N (Z.lor (Z.shiftl leftchar 6) v)])
            end
        end
  end.

(** [base64.b64decode(s)] for a [str], which must be ASCII. *)
Definition b64decode (s : str) : result bytes :=
  if forallb (fun c => (c <=? 127)%N) s
  then a2b_loop s 0 0 0 0 []
  else Raise (Exception "ValueError"
                (lit "string argument should contain only ASCII characters")).

End Base64.

(** ** Words used to state the properties *)

(** The text with every space (U+0020) left out. *)
Definition without_spaces (s : str) : str :=
  List.filter (fun c => negb (c =? 32)%N) s.

(** The pieces of a text between its spaces. *)
Fixpoint split_space (s : str) (piece : str) : list str :=
  match s with
  | [] => [piece]
  | c :: s' =>
      if (c =? 32)%N then piece :: split_space s' []
      else split_space s' (piece ++ [c])
  end.

(** The space-separated tokens of a text; the empty text has none. *)
Definition tokens (s : str) : list str :=
  match s with
  | [] => []
  | _ :: _ => split_space s []
  end.

(** What the loop of [_parse_hashtags] collects from a list of strings:
    the normalized tags, the blank ones left out. *)
Fixpoint normalize_tags (tags : list str) : list str :=
  match tags with
  | [] => []
  | t :: rest =>
      match clean_tag t with
      | Some r => r :: normalize_tags rest
      | None => normalize_tags rest
      end
  end.

(** A text that begins with one [#] and not with two. *)
Definition one_leading_hash (t : str) : bool :=
  startswith t hash && negb (startswith t (hash ++ hash)).

(** No character of the text is white space. *)
Definition no_whitespace (t : str) : bool :=
  forallb (fun c => negb (isspace c)) t.

(** A tag as the normalizer should leave it: not empty, trimmed, one
    leading [#], no white space inside. *)
Definition normalized_tag (t : str) : Prop :=
  t <> [] /\ strip t = t /\ one_leading_hash t = true /\ no_whitespace t = true.

(** The object of the schema with prose before and after it. *)
Definition embedded_example : str :=
  lit "Sure! {" ++ quoted "hashtags" ++ lit ":[" ++ quoted "AI" ++ lit ","
  ++ quoted "#SME" ++ lit "]} Thanks".

(** A response whose one tag has two leading [#]. *)
Definition growth_example : str :=
  lit "{" ++ quoted "hashtags" ++ lit ": [" ++ quoted "##growth" ++ lit "]}".

(** The guard of the recovery step: no brace pair to cut out. *)
Definition no_brace_pair (text : str) : Prop :=
  find text (lit "{") = -1 \/ rfind text (lit "}") = -1
  \/ rfind text (lit "}") <= find text (lit "{").

(** The text between the first opening and the last closing brace. *)
Definition braced (text : str) : str :=
  slice text (find text (lit "{")) (rfind text (lit "}") + 1).

(** No character of the text is a space (U+0020). *)
Definition spaceless (t : str) : bool :=
  forallb (fun c => negb (c =? 32)%N) t.

(** A response with three tags, the second of which is one space. *)
Definition three_tags_one_blank : str :=
  lit "{" ++ quoted "hashtags" ++ lit ": [" ++ quoted "AI" ++ lit ", "
  ++ quoted " " ++ lit ", " ++ quoted "SME" ++ lit "]}".

(** A response with one tag, which holds the escape of a tab. *)
Definition tag_with_tab : str :=
  lit "{" ++ quoted "hashtags" ++ lit ": [" ++ quoted "AI\tOps" ++ lit "]}".

(** The property of the result as the specification words it, for a
    response whose tag list has [n] elements: [min n 10] tokens, each with
    exactly one leading [#] and no white space. *)
Definition schema_claim_as_stated (raw : str) (n : nat) : Prop :=
  exists r,
    _parse_hashtags Json.loads str_of_scalar (PyStr raw) = Ok r /\
    length (tokens r) = Nat.min n 10 /\
    Forall (fun t => one_leading_hash t = true /\ no_whitespace t = true)
      (tokens r).

(** The keys of the [llm] entry. *)
Definition llm_keys : list str :=
  [ lit "model"; lit "attempts"; lit "usage"; lit "length";
    lit "estimated_cost_usd"; lit "error" ].

(** A completion result that has no [content]. *)
Definition completion_without_content : dict :=
  [ (lit "model", PyStr (lit "gpt-4o-mini")); (lit "attempts", PyInt 3);
    (lit "error", PyStr (lit "empty completion")) ].

(** ** An example platform *)

(** [c.lower()] for an ASCII letter. *)
Definition lower (c : N) : N := if between 65 90 c then (c + 32)%N else c.

(** [float(s)] for text in ASCII without digit separators: a sign, then
    [inf], [infinity], [nan] or a decimal numeral with optional fraction
    and exponent, white space around it allowed. *)
Definition float_of_ascii (s : str) : result spec_float :=
  let failure :=
    Raise (Exception "ValueError" (lit "could not convert string to float")) in
  let t := strip s in
  let '(neg, body) :=
    match t with
    | c :: t' =>
        if (c =? 45)%N then (true, t')
        else if (c =? 43)%N then (false, t')
        else (false, t)
    | [] => (false, t)
    end in
  let word := map lower body in
  if bool_decide (word = lit "inf") || bool_decide (word = lit "infinity")
  then Ok (S754_infinity neg)
  else if bool_decide (word = lit "nan") then Ok S754_nan
  else
    let '(int_digits, s1) := Json.span_digits body in
    let '(frac_digits, s2) :=
      match s1 with
      | p :: t' => if (p =? 46)%N then Json.span_digits t' else ([], s1)
      | [] => ([], s1)
      end in
    match int_digits ++ frac_digits with
    | [] => failure
    | digits =>
        let exponent : option (Z * str) :=
          match s2 with
          | [] => Some (0, [])
          | e :: t' =>
              if (e =? 101)%N || (e =? 69)%N then
                let '(eneg, t'') :=
                  match t' with
                  | sg :: u =>
                      if (sg =? 45)%N then (true, u)
                      else if (sg =? 43)%N then (false, u)
                      else (false, t')
                  | [] => (false, t')
                  end in
                match Json.span_digits t'' with
                | ([], _) => None
                | (ed, rest) =>
                    Some (if eneg then - Json.digits_value ed
                          else Json.digits_value ed, rest)
                end
              else None
          end in
        match exponent with
        | Some (e10, []) =>
            Ok (Json.float_of_decimal neg (Json.digits_value digits)
                  (e10 - Z.of_nat (length frac_digits)))
        | _ => failure
        end
    end.

(** The service answers every request with one item, the base64 text of
    the two bytes [hi]; temporary files go to [/tmp]. *)
Definition example_platform : Platform :=
  {| float_of_text := float_of_ascii;
     b64decode := Base64.b64decode;
     openai_init := fun _ _ => None;
     images_generate :=
       fun _ _ => Ok {| data := Some [ {| b64_json := Some (lit "aGk=") |} ] |};
     gettempdir := lit "/tmp";
     random_names := [ lit "k3x9q2ab"; lit "w0_tzr5c" ];
     create_error := fun _ => None;
     write_error := fun _ _ => None |}.

(** The same, but the service fails with an exception that has no text. *)
Definition silent_failure_platform : Platform :=
  {| float_of_text := float_of_ascii;
     b64decode := Base64.b64decode;
     openai_init := fun _ _ => None;
     images_generate := fun _ _ => Raise (Exception "TimeoutError" []);
     gettempdir := lit "/tmp";
     random_names := [ lit "k3x9q2ab"; lit "w0_tzr5c" ];
     create_error := fun _ => None;
     write_error := fun _ _ => None |}.

(** A world with no credential in the environment and one file in [/tmp],
    which bears the first name the platform draws. *)
Definition example_world : World :=
  {| environ := ∅;
     files := {[ lit "/tmp/pbcg_k3x9q2ab.png" := [1; 2; 3]%N ]};
     requests := [] |}.

(** A config with a credential, and one whose [timeout] is [None]. *)
Definition config_with_key : dict := [ (lit "api_key", PyStr (lit "sk-test")) ].

Definition config_with_bad_timeout : dict :=
  [ (lit "api_key", PyStr (lit "sk-test")); (lit "timeout", PyNone) ].

(** A token of a hashtag result: not empty, a [#] in front, no space. *)
Definition hashtag_token (t : str) : Prop :=
  t <> [] /\ startswith t hash = true /\ spaceless t = true.

(** A text that is not empty and neither begins nor ends with white
    space. *)
Definition trimmed (s : str) : Prop :=
  exists c rest pre d,
    s = c :: rest /\ s = pre ++ [d] /\ isspace c = false /\ isspace d = false.

(** The text has a character that is not white space. *)
Definition has_text (t : str) : bool :=
  existsb (fun c => negb (isspace c)) t.

(** The text after its leading [#] characters. *)
Definition after_hashes (s : str) : str :=
  lstrip_by (fun c => (c =? 35)%N) s.

(** What a token owes to the tag it comes from.  The tag is white space, a
    core that neither begins nor ends with white space, and white space
    again.  The token begins with [#]; after its leading [#] it reads as
    the core without its spaces (U+0020) does after its own; and it has
    exactly one leading [#] unless the core without its spaces begins with
    two. *)
Definition token_of (tag tok : str) : Prop :=
  exists pre core post,
    tag = pre ++ core ++ post /\
    forallb isspace pre = true /\ forallb isspace post = true /\
    trimmed core /\
    startswith tok hash = true /\
    after_hashes tok = after_hashes (without_spaces core) /\
    (startswith (without_spaces core) (hash ++ hash) = false ->
     one_leading_hash tok = true).


(** A completion result whose [content] is prose. *)
Definition completion_with_prose : dict :=
  [ (lit "content", PyStr (lit "Sorry, I cannot help."));
    (lit "model", PyStr (lit "gpt-4o-mini")); (lit "attempts", PyInt 2) ].

(** A completion text that is a bare array of tags, not the object of the
    schema. *)
Definition bare_array_example : str :=
  lit "[" ++ quoted "#AI" ++ lit ", " ++ quoted "#SME" ++ lit "]".

(** An object that holds its tags under another key. *)
Definition other_key_example : str :=
  lit "{" ++ quoted "tags" ++ lit ": [" ++ quoted "AI" ++ lit "]}".

(** Ten tags, [a] to [j]. *)
Definition ten_tags : list str :=
  [ lit "a"; lit "b"; lit "c"; lit "d"; lit "e";
    lit "f"; lit "g"; lit "h"; lit "i"; lit "j" ].

(** The credential [generate_post_image] settles on: the [api_key] of the
    config when it is true, else [OPENAI_API_KEY] of the environment. *)
Definition api_key_of (config : dict) (w : World) : pyval :=
  py_or (dict_get config (lit "api_key") PyNone)
    match environ w !! lit "OPENAI_API_KEY" with
    | Some v => PyStr v
    | None => PyNone
    end.

(** The model and the size [generate_post_image] reads from the config. *)
Definition image_model_of (config : dict) : pyval :=
  dict_get config (lit "image_model") (PyStr (lit "gpt-image-1")).

Definition image_size_of (config : dict) : pyval :=
  dict_get config (lit "image_size") (PyStr (lit "1024x1024")).

(** The one request [generate_post_image] sends to the image service. *)
Definition image_request (post topic : str) (config : dict) : ImageRequest :=
  {| req_model := image_model_of config;
     req_prompt := image_prompt post topic;
     req_size := image_size_of config |}.

(** The metadata of the [except] branch for an exception with this text. *)
Definition caught_metadata (text : str) (config : dict) : dict :=
  [ (lit "error", PyStr text); (lit "model", image_model_of config);
    (lit "size", image_size_of config) ].

(** The world after the request to the image service has been made. *)
Definition after_request (w : World) (req : ImageRequest) : World :=
  {| environ := environ w; files := files w; requests := requests w ++ [req] |}.

(** The example platform with another answer of the image service. *)
Definition service_platform (answer : result ImagesResponse) : Platform :=
  {| float_of_text := float_of_ascii;
     b64decode := Base64.b64decode;
     openai_init := fun _ _ => None;
     images_generate := fun _ _ => answer;
     gettempdir := lit "/tmp";
     random_names := [ lit "k3x9q2ab"; lit "w0_tzr5c" ];
     create_error := fun _ => None;
     write_error := fun _ _ => None |}.

(** The example platform on a disk that is full after the first byte. *)
Definition full_disk_platform : Platform :=
  {| float_of_text := float_of_ascii;
     b64decode := Base64.b64decode;
     openai_init := fun _ _ => None;
     images_generate :=
       fun _ _ => Ok {| data := Some [ {| b64_json := Some (lit "aGk=") |} ] |};
     gettempdir := lit "/tmp";
     random_names := [ lit "k3x9q2ab"; lit "w0_tzr5c" ];
     create_error := fun _ => None;
     write_error :=
       fun _ _ =>
         Some (Exception "OSError" (lit "[Errno 28] No space left on device"),
               1%nat) |}.

(** The example platform whose client constructor refuses the arguments. *)
Definition refusing_platform : Platform :=
  {| float_of_text := float_of_ascii;
     b64decode := Base64.b64decode;
     openai_init :=
       fun _ _ => Some (Exception "OpenAIError" (lit "client refused"));
     images_generate := fun _ _ => Ok {| data := None |};
     gettempdir := lit "/tmp";
     random_names := [ lit "k3x9q2ab"; lit "w0_tzr5c" ];
     create_error := fun _ => None;
     write_error := fun _ _ => None |}.

(** A world whose environment holds an empty [OPENAI_API_KEY]. *)
Definition empty_key_world : World :=
  {| environ := {[ lit "OPENAI_API_KEY" := [] ]};
     files := ∅;
     requests := [] |}.

(** A world whose environment holds a credential. *)
Definition env_key_world : World :=
  {| environ := {[ lit "OPENAI_API_KEY" := lit "sk-env" ]};
     files := ∅;
     requests := [] |}.

(** Unfolding of the operation down to the calls of the platform. *)
Ltac unfold_image :=
  unfold generate_post_image, image_attempt, write_named_temporary_file,
    client_images_generate, OpenAI, set_file, getenv, try_except, bind, lift,
    ret, raise in *.

(** Case analysis on the next [match] or [if] the operation runs into. *)
Ltac next_case :=
  match goal with
  | H : context [match ?x with _ => _ end] |- _ => destruct x eqn:?
  | H : context [if ?b then _ else _] |- _ => destruct b eqn:?
  | |- context [match ?x with _ => _ end] => destruct x eqn:?
  | |- context [if ?b then _ else _] => destruct b eqn:?
  end.

(** The path the example platform gives the image in the example world. *)
Definition example_path : str := lit "/tmp/pbcg_w0_tzr5c.png".

(** The property of the outcome as the specification words it: the
    operation returns, and a result with no path comes with an [error]
    text that is not empty. *)
Definition never_raises_as_stated (out : World * result (option str * dict))
  : Prop :=
  match snd out with
  | Raise _ => False
  | Ok (Some _, _) => True
  | Ok (None, meta) =>
      exists msg, dict_lookup meta (lit "error") = Some (PyStr msg) /\ msg <> []
  end.

(** ** Facts about the text methods *)

Lemma truthy_str (s : str) : truthy (PyStr s) = false <-> s = [].
Proof.
  simpl. case_bool_decide; simpl; split; intros; congruence.
Qed.

Lemma lstrip_by_all (p : N -> bool) (s : str) :
  forallb p s = true -> lstrip_by p s = [].
Proof.
  induction s as [|c s IH]; simpl; [reflexivity|].
  intros [Hc Hs]%andb_true_iff. rewrite Hc. auto.
Qed.

Lemma strip_blank (s : str) : forallb isspace s = true -> strip s = [].
Proof.
  intros H. unfold strip. rewrite lstrip_by_all by assumption. reflexivity.
Qed.

Lemma lstrip_by_head (p : N -> bool) (c : N) (s : str) :
  p c = false -> lstrip_by p (c :: s) = c :: s.
Proof. intros H. simpl. rewrite H. reflexivity. Qed.

Lemma rstrip_by_last (p : N -> bool) (s : str) (c : N) :
  p c = false -> rstrip_by p (s ++ [c]) = s ++ [c].
Proof.
  intros H. unfold rstrip_by. rewrite rev_app_distr. simpl. rewrite H.
  simpl. rewrite rev_involutive. reflexivity.
Qed.

Lemma startswith_space (c : N) (s : str) :
  startswith (c :: s) space = (c =? 32)%N.
Proof. change space with [32%N]. cbn [startswith]. apply andb_true_r. Qed.

Lemma startswith_hash (c : N) (s : str) :
  startswith (c :: s) hash = (c =? 35)%N.
Proof. change hash with [35%N]. cbn [startswith]. apply andb_true_r. Qed.

Lemma replace_from_space (fuel : nat) (s : str) :
  (length s <= fuel)%nat -> replace_from fuel s space [] = without_spaces s.
Proof.
  revert s. induction fuel as [|fuel IH]; intros [|c s] Hlen;
    try reflexivity; try (simpl in Hlen; lia).
  cbn [replace_from]. rewrite startswith_space.
  change (skipn (length space) (c :: s)) with s.
  cbn [without_spaces List.filter]. simpl in Hlen.
  destruct (c =? 32)%N; cbn [negb app].
  - apply IH. lia.
  - f_equal. apply IH. lia.
Qed.

Lemma replace_space (s : str) : replace s space [] = without_spaces s.
Proof. apply replace_from_space. lia. Qed.

Lemma without_spaces_id (s : str) :
  forallb (fun c => negb (c =? 32)%N) s = true -> without_spaces s = s.
Proof.
  induction s as [|c s IH]; simpl; [reflexivity|].
  intros [Hc Hs]%andb_true_iff. rewrite Hc. f_equal. auto.
Qed.

Lemma without_spaces_clean (s : str) :
  forallb (fun c => negb (c =? 32)%N) (without_spaces s) = true.
Proof.
  induction s as [|c s IH]; simpl; [reflexivity|].
  destruct (c =? 32)%N eqn:E; simpl; [assumption|].
  rewrite E. simpl. assumption.
Qed.

Lemma no_whitespace_no_space (s : str) :
  no_whitespace s = true -> forallb (fun c => negb (c =? 32)%N) s = true.
Proof.
  unfold no_whitespace. induction s as [|c s IH]; simpl; [reflexivity|].
  intros [Hc Hs]%andb_true_iff. rewrite IH by assumption.
  rewrite andb_true_r. destruct (c =? 32)%N eqn:E; [|reflexivity].
  apply N.eqb_eq in E. subst c. discriminate Hc.
Qed.

(** ** Facts about the loop over the tags *)

Lemma clean_loop_strs (so : pyval -> result str) (tags : list str)
    (cleaned : list str) :
  clean_loop so (map PyStr tags) cleaned = Ok (cleaned ++ normalize_tags tags).
Proof.
  revert cleaned. induction tags as [|t tags IH]; intros cleaned; simpl.
  - rewrite app_nil_r. reflexivity.
  - destruct (clean_tag t) as [r|]; rewrite IH.
    + rewrite <- app_assoc. reflexivity.
    + reflexivity.
Qed.

(** The extractor on a payload that follows the schema. *)
Lemma tags_of_schema_payload (so : pyval -> result str) (d : dict)
    (tags : list str) :
  dict_lookup d (lit "hashtags") = Some (PyList (map PyStr tags)) ->
  tags_of_payload so (PyDict d)
  = Ok (join space (firstn 10 (normalize_tags tags))).
Proof.
  intros H. unfold tags_of_payload, dict_get. rewrite H.
  rewrite clean_loop_strs. reflexivity.
Qed.

(** The extractor on text, in terms of its stripped text. *)
Lemma parse_hashtags_str (loads : str -> option pyval)
    (so : pyval -> result str) (raw : str) :
  _parse_hashtags loads so (PyStr raw) = parse_text loads so (strip raw).
Proof.
  unfold _parse_hashtags, py_or. destruct (truthy (PyStr raw)) eqn:E.
  - reflexivity.
  - apply truthy_str in E. subst raw. reflexivity.
Qed.



(** The two branches of [parse_text] on a text that is not empty. *)
Lemma parse_text_no_pair (loads : str -> option pyval)
    (so : pyval -> result str) (text : str) :
  loads text = None ->
  (find text (lit "{") =? -1) || (rfind text (lit "}") =? -1)
  || (rfind text (lit "}") <=? find text (lit "{")) = true ->
  parse_text loads so text = Ok text.
Proof.
  intros Hstrict G. unfold parse_text.
  destruct (truthy (PyStr text)) eqn:E; cbn [negb].
  - rewrite Hstrict, G. reflexivity.
  - apply truthy_str in E. rewrite E. reflexivity.
Qed.

Lemma parse_text_pair (loads : str -> option pyval)
    (so : pyval -> result str) (text : str) :
  text <> [] ->
  loads text = None ->
  (find text (lit "{") =? -1) || (rfind text (lit "}") =? -1)
  || (rfind text (lit "}") <=? find text (lit "{")) = false ->
  parse_text loads so text
  = match loads (slice text (find text (lit "{")) (rfind text (lit "}") + 1)) with
    | Some payload => tags_of_payload so payload
    | None => Ok text
    end.
Proof.
  intros Hne Hstrict G. unfold parse_text.
  destruct (truthy (PyStr text)) eqn:E; cbn [negb].
  - rewrite Hstrict, G. reflexivity.
  - apply truthy_str in E. contradiction.
Qed.

(** ** The extractor: blank text, fallback and recovery *)

(** C6.  For every completion text that is empty or holds white space only,
    [_parse_hashtags] returns the empty string: it returns, raises nothing,
    yields no tag, and does so whatever the JSON decoder would answer,
    since the decoder is not consulted. *)
Theorem parse_hashtags_blank (loads : str -> option pyval)
    (so : pyval -> result str) (raw : str) :
  forallb isspace raw = true ->
  exists r,
    _parse_hashtags loads so (PyStr raw) = Ok r /\ r = [] /\ tokens r = [].
Proof.
  intros Hblank. exists []. split; [|split; reflexivity].
  rewrite parse_hashtags_str, strip_blank by assumption. reflexivity.
Qed.

Lemma parse_hashtags_blank_witness :
  forallb isspace [32; 9; 10; 160; 8195]%N = true /\
  _parse_hashtags Json.loads str_of_scalar (PyStr [32; 9; 10; 160; 8195]%N)
  = Ok [].
Proof.
  split; [reflexivity|].
  destruct (parse_hashtags_blank Json.loads str_of_scalar
              [32; 9; 10; 160; 8195]%N) as (r & Hr & -> & _).
  - reflexivity.
  - exact Hr.
Defined.

(** C3, as the code has it.  When the strict parse of the stripped text
    fails and either there is no brace pair or the parse of the braced part
    fails too, [_parse_hashtags] returns the text stripped of leading and
    trailing white space; that is the raw text itself when it has none. *)
Theorem parse_hashtags_fallback (loads : str -> option pyval)
    (so : pyval -> result str) (raw : str) :
  loads (strip raw) = None ->
  no_brace_pair (strip raw) \/ loads (braced (strip raw)) = None ->
  _parse_hashtags loads so (PyStr raw) = Ok (strip raw) /\
  (strip raw = raw -> _parse_hashtags loads so (PyStr raw) = Ok raw).
Proof.
  intros Hstrict Hrec.
  assert (H : _parse_hashtags loads so (PyStr raw) = Ok (strip raw)).
  { rewrite parse_hashtags_str.
    destruct ((find (strip raw) (lit "{") =? -1)
              || (rfind (strip raw) (lit "}") =? -1)
              || (rfind (strip raw) (lit "}") <=? find (strip raw) (lit "{")))
      eqn:G.
    - apply parse_text_no_pair; assumption.
    - destruct (strip raw) as [|c text] eqn:Etext; [reflexivity|].
      rewrite parse_text_pair by (assumption || discriminate).
      destruct Hrec as [Hnone|Hfail].
      + exfalso. apply orb_false_iff in G as [G1 G3].
        apply orb_false_iff in G1 as [G1 G2].
        destruct Hnone as [Ha|[Hb|Hc]]; lia.
      + unfold braced in Hfail. rewrite Hfail. reflexivity. }
  split; [exact H|]. intros Hid. rewrite H, Hid. reflexivity.
Qed.

Lemma parse_hashtags_fallback_witness :
  _parse_hashtags Json.loads str_of_scalar (PyStr (lit "Great post about AI!"))
  = Ok (lit "Great post about AI!").
Proof.
  apply (parse_hashtags_fallback Json.loads str_of_scalar
           (lit "Great post about AI!")).
  - vm_compute. reflexivity.
  - left. left. vm_compute. reflexivity.
  - vm_compute. reflexivity.
Defined.

(** C3, as stated, fails: prose with a space before and after has no brace,
    fails the strict parse, and comes back without the two spaces, not
    unmodified. *)
Lemma parse_hashtags_fallback_not_raw :
  let raw := lit " plain prose " in
  Json.loads raw = None /\
  Json.loads (strip raw) = None /\
  find raw (lit "{") = -1 /\ rfind raw (lit "}") = -1 /\
  _parse_hashtags Json.loads str_of_scalar (PyStr raw) = Ok (lit "plain prose") /\
  _parse_hashtags Json.loads str_of_scalar (PyStr raw) <> Ok raw.
Proof.
  cbv zeta. repeat split; try (vm_compute; reflexivity).
  vm_compute. intros H. discriminate H.
Qed.

(** ** The tag normalizer *)

(** What [strip] leaves is empty or ends in a character that is not white
    space, and likewise begins with one. *)
Lemma lstrip_by_spec (p : N -> bool) (s : str) :
  lstrip_by p s = [] \/
  exists c s', lstrip_by p s = c :: s' /\ p c = false.
Proof.
  induction s as [|c s IH]; simpl; [left; reflexivity|].
  destruct (p c) eqn:E; [exact IH|]. right. eauto.
Qed.

Lemma lstrip_by_suffix (p : N -> bool) (s : str) :
  exists pre, s = pre ++ lstrip_by p s.
Proof.
  induction s as [|c s [pre IH]]; simpl; [exists []; reflexivity|].
  destruct (p c).
  - exists (c :: pre). simpl. f_equal. exact IH.
  - exists []. reflexivity.
Qed.

Lemma strip_ends (s : str) :
  strip s = [] \/
  exists c body d,
    strip s = body ++ [d] /\ isspace d = false /\
    hd_error (strip s) = Some c /\ isspace c = false.
Proof.
  unfold strip, rstrip_by.
  destruct (lstrip_by_spec isspace s) as [E|(c & s' & E & Hc)].
  - left. rewrite E. reflexivity.
  - rewrite E.
    destruct (lstrip_by_spec isspace (rev (c :: s'))) as [E'|(d & t & E' & Hd)].
    + left. rewrite E'. reflexivity.
    + right. rewrite E'. simpl.
      destruct (lstrip_by_suffix isspace (rev (c :: s'))) as [pre Hpre].
      rewrite E' in Hpre.
      assert (Hrev : c :: s' = rev t ++ d :: rev pre).
      { rewrite <- (rev_involutive (c :: s')), Hpre, rev_app_distr. simpl.
        rewrite <- app_assoc. reflexivity. }
      destruct (rev t) as [|c' t'] eqn:Et.
      * simpl in Hrev. injection Hrev as -> _.
        exists d, [], d. simpl. auto.
      * simpl in Hrev. injection Hrev as -> _.
        exists c', (c' :: t'), d. simpl. auto.
Qed.

Lemma without_spaces_app (a b : str) :
  without_spaces (a ++ b) = without_spaces a ++ without_spaces b.
Proof. apply List.filter_app. Qed.

Lemma isspace_space (c : N) : isspace c = false -> (c =? 32)%N = false.
Proof.
  intros H. destruct (c =? 32)%N eqn:E; [|reflexivity].
  apply N.eqb_eq in E. subst c. discriminate H.
Qed.

(** What the loop appends for a tag: not empty, a [#] in front, no space
    inside, and left alone by [strip]. *)
Lemma clean_tag_shape (t r : str) :
  clean_tag t = Some r ->
  r <> [] /\ startswith r hash = true
  /\ forallb (fun c => negb (c =? 32)%N) r = true /\ strip r = r.
Proof.
  unfold clean_tag. cbv zeta.
  set (u := if negb (startswith (strip t) hash)
            then hash ++ lstrip (strip t) hash else strip t).
  destruct (truthy (PyStr (strip t))) eqn:E; cbn [negb]; [|discriminate].
  rewrite replace_space.
  assert (Hne : strip t <> []).
  { intros H. apply truthy_str in H. congruence. }
  destruct (strip_ends t) as [H|(c & body & d & Hlast & Hd & Hfirst & Hc)];
    [contradiction|].
  assert (Hu : (exists rest, u = 35%N :: rest) /\ (exists pre, u = pre ++ [d])).
  { subst u. destruct (strip t) as [|x text] eqn:Et; [contradiction|].
    simpl in Hfirst. injection Hfirst as ->.
    rewrite startswith_hash. destruct (c =? 35)%N eqn:Ec; cbn [negb].
    - apply N.eqb_eq in Ec. subst c. split; eauto.
    - unfold lstrip. rewrite lstrip_by_head.
      + change hash with [35%N]. split; [simpl; eauto|].
        exists (35%N :: body). rewrite Hlast. reflexivity.
      + change hash with [35%N]. simpl. rewrite Ec. reflexivity. }
  destruct Hu as [[rest Hrest] [pre Hpre]]. clearbody u.
  assert (Hfront : without_spaces u = 35%N :: without_spaces rest).
  { rewrite Hrest. reflexivity. }
  assert (Hback : without_spaces u = without_spaces pre ++ [d]).
  { rewrite Hpre, without_spaces_app. f_equal.
    unfold without_spaces. simpl. rewrite isspace_space by assumption.
    reflexivity. }
  intros Hr. assert (Er : r = without_spaces u) by congruence.
  clear Hr. subst r.
  split; [|split; [|split]].
  - rewrite Hfront. discriminate.
  - rewrite Hfront. reflexivity.
  - apply without_spaces_clean.
  - unfold strip. rewrite Hfront at 1. rewrite lstrip_by_head by reflexivity.
    rewrite <- Hfront, Hback. apply rstrip_by_last. assumption.
Qed.

(** A tag that [strip] leaves alone and that begins with [#] is appended
    with its spaces removed, however many [#] lead it. *)
Lemma clean_tag_hashed (t : str) :
  strip t = t -> startswith t hash = true ->
  clean_tag t = Some (without_spaces t).
Proof.
  intros Hs Hh. unfold clean_tag. rewrite Hs, Hh, replace_space.
  destruct (truthy (PyStr t)) eqn:E; [reflexivity|].
  apply truthy_str in E. subst t. discriminate Hh.
Qed.

(** X4.  Normalizing twice is normalizing once: on what the loop appends
    for a tag, whatever the tag, the loop body changes nothing. *)
Lemma clean_tag_idempotent (t r : str) :
  clean_tag t = Some r -> clean_tag r = Some r.
Proof.
  intros H. destruct (clean_tag_shape t r H) as (Hne & Hh & Hsp & Hs).
  rewrite clean_tag_hashed by assumption.
  rewrite without_spaces_id by assumption. reflexivity.
Qed.

(** C9.  The normalizer leaves an already normalized tag (not empty,
    trimmed, exactly one leading [#], no white space inside) unchanged. *)
Theorem clean_tag_stable (t : str) :
  normalized_tag t -> clean_tag t = Some t.
Proof.
  intros (Hne & Hs & Hh & Hw).
  apply andb_true_iff in Hh as [Hh _].
  rewrite clean_tag_hashed by assumption.
  rewrite without_spaces_id; [reflexivity|].
  apply no_whitespace_no_space. assumption.
Qed.

Lemma clean_tag_stable_witness :
  normalized_tag (lit "#growth") /\ clean_tag (lit "#growth") = Some (lit "#growth").
Proof.
  assert (H : normalized_tag (lit "#growth")).
  { repeat split; try (vm_compute; reflexivity). discriminate. }
  split; [exact H|]. apply (clean_tag_stable (lit "#growth") H).
Defined.

(** C2, at the input of the specification.  The normalizer leaves the two
    leading [#] of [##growth] in place: the branch that strips them is taken
    only by a tag that begins with none.  The claim asks for [#growth]. *)
Theorem clean_tag_double_hash :
  clean_tag (lit "##growth") = Some (lit "##growth") /\
  one_leading_hash (lit "##growth") = false /\
  Json.loads growth_example
  = Some (PyDict [(lit "hashtags", PyList [PyStr (lit "##growth")])]) /\
  _parse_hashtags Json.loads str_of_scalar (PyStr growth_example)
  = Ok (lit "##growth").
Proof. repeat split; vm_compute; reflexivity. Qed.

(** ** The result on a response that follows the schema *)

Lemma split_space_app (t rest piece : str) :
  spaceless t = true ->
  split_space (t ++ rest) piece = split_space rest (piece ++ t).
Proof.
  revert piece. induction t as [|c t IH]; intros piece; simpl.
  - rewrite app_nil_r. reflexivity.
  - intros [Hc Ht]%andb_true_iff. apply negb_true_iff in Hc. rewrite Hc.
    rewrite IH by assumption. rewrite <- app_assoc. reflexivity.
Qed.

Lemma split_space_join (t : str) (toks : list str) :
  Forall (fun t => spaceless t = true) (t :: toks) ->
  split_space (join space (t :: toks)) [] = t :: toks.
Proof.
  revert t. induction toks as [|t2 toks IH]; intros t Hall.
  - simpl. rewrite <- (app_nil_r t) at 1.
    rewrite split_space_app by (inversion Hall; assumption). reflexivity.
  - change (join space (t :: t2 :: toks))
      with (t ++ space ++ join space (t2 :: toks)).
    inversion Hall as [|? ? Ht Hrest]; subst.
    rewrite split_space_app by assumption.
    change (space ++ join space (t2 :: toks))
      with (32%N :: join space (t2 :: toks)).
    cbn [split_space]. rewrite N.eqb_refl. cbn [app]. f_equal.
    apply IH. assumption.
Qed.

(** The tokens of a text made by joining tokens are those tokens, when none
    is empty and none holds a space. *)
Lemma tokens_join (toks : list str) :
  Forall (fun t => t <> [] /\ spaceless t = true) toks ->
  tokens (join space toks) = toks.
Proof.
  intros Hall. destruct toks as [|t toks]; [reflexivity|].
  assert (Hsp : Forall (fun t => spaceless t = true) (t :: toks)).
  { eapply Forall_impl; [exact Hall|]. intros ? [_ H]. exact H. }
  unfold tokens. destruct (join space (t :: toks)) eqn:E.
  - exfalso. inversion Hall as [|? ? [Hne _] _]; subst.
    destruct t; [contradiction|]. destruct toks; discriminate E.
  - rewrite <- E. apply split_space_join. assumption.
Qed.

Lemma normalize_tags_shape (tags : list str) :
  Forall (fun r => r <> [] /\ startswith r hash = true /\ spaceless r = true)
    (normalize_tags tags).
Proof.
  induction tags as [|t tags IH]; simpl; [constructor|].
  destruct (clean_tag t) as [r|] eqn:E; [|exact IH].
  constructor; [|exact IH].
  destruct (clean_tag_shape t r E) as (H1 & H2 & H3 & _). auto.
Qed.

Lemma clean_tag_blank (t : str) : clean_tag t = None <-> strip t = [].
Proof.
  unfold clean_tag. cbv zeta. destruct (truthy (PyStr (strip t))) eqn:E;
    cbn [negb]; split; intros H; try discriminate; try reflexivity.
  - apply truthy_str in H. congruence.
  - apply truthy_str. assumption.
Qed.

Lemma normalize_tags_length (tags : list str) :
  (length (normalize_tags tags) <= length tags)%nat /\
  (Forall (fun t => strip t <> []) tags ->
   length (normalize_tags tags) = length tags).
Proof.
  induction tags as [|t tags [IH1 IH2]]; simpl; [auto|].
  destruct (clean_tag t) as [r|] eqn:E; simpl; split; try lia.
  - intros H. inversion H; subst. f_equal. auto.
  - intros H. inversion H as [|? ? Hne _]; subst.
    apply clean_tag_blank in E. contradiction.
Qed.

Lemma one_leading_hash_cons (c : N) (rest : str) :
  (c =? 35)%N = false -> one_leading_hash (35%N :: c :: rest) = true.
Proof.
  intros H. unfold one_leading_hash. change hash with [35%N].
  cbn [startswith app]. rewrite N.eqb_refl, H. reflexivity.
Qed.

(** A tag that does not begin with [#] once stripped comes out with exactly
    one leading [#]. *)
Lemma clean_tag_one_hash (t r : str) :
  startswith (strip t) hash = false ->
  clean_tag t = Some r -> one_leading_hash r = true.
Proof.
  intros Hh. unfold clean_tag. cbv zeta. rewrite Hh. cbn [negb].
  destruct (truthy (PyStr (strip t))) eqn:E; cbn [negb]; [|discriminate].
  rewrite replace_space. intros Hr.
  assert (Er : r = without_spaces (hash ++ lstrip (strip t) hash))
    by congruence.
  clear Hr. subst r.
  destruct (strip_ends t) as [H|(c & body & d & Hlast & Hd & Hfirst & Hc)].
  - apply truthy_str in H. congruence.
  - destruct (strip t) as [|x text]; [discriminate Hfirst|].
    simpl in Hfirst. injection Hfirst as ->.
    rewrite startswith_hash in Hh.
    unfold lstrip. rewrite lstrip_by_head.
    + change (hash ++ c :: text) with (35%N :: c :: text).
      unfold without_spaces. cbn [List.filter N.eqb Pos.eqb negb].
      rewrite isspace_space by assumption. cbn [negb].
      apply one_leading_hash_cons. assumption.
    + change hash with [35%N]. cbn [existsb]. rewrite Hh. reflexivity.
Qed.

Lemma normalize_tags_one_hash (tags : list str) :
  Forall (fun t => startswith (strip t) hash = false) tags ->
  Forall (fun r => one_leading_hash r = true) (normalize_tags tags).
Proof.
  induction 1 as [|t tags Ht _ IH]; simpl; [constructor|].
  destruct (clean_tag t) as [r|] eqn:E; [|exact IH].
  constructor; [|exact IH]. eapply clean_tag_one_hash; eassumption.
Qed.

Lemma trimmed_strip (s : str) : trimmed s -> strip s = s.
Proof.
  intros (c & rest & pre & d & Hfront & Hback & Hc & Hd). unfold strip.
  rewrite Hfront at 1. rewrite lstrip_by_head by assumption.
  rewrite <- Hfront, Hback. apply rstrip_by_last. assumption.
Qed.

Lemma strip_trimmed (s : str) : strip s <> [] -> trimmed (strip s).
Proof.
  intros Hne.
  destruct (strip_ends s) as [E|(c & body & d & Hlast & Hd & Hfirst & Hc)];
    [contradiction|].
  destruct (strip s) as [|x rest] eqn:E; [contradiction|].
  simpl in Hfirst. injection Hfirst as ->.
  exists c, rest, body, d. auto.
Qed.

Lemma strip_idempotent (s : str) : strip (strip s) = strip s.
Proof.
  destruct (strip s) as [|c rest] eqn:E; [reflexivity|].
  rewrite <- E. apply trimmed_strip. apply strip_trimmed.
  rewrite E. discriminate.
Qed.

Lemma clean_tag_trimmed (t r : str) : clean_tag t = Some r -> trimmed r.
Proof.
  intros H. destruct (clean_tag_shape t r H) as (Hne & _ & _ & Hs).
  rewrite <- Hs. apply strip_trimmed. rewrite Hs. assumption.
Qed.

Lemma forallb_rev (p : N -> bool) (l : str) :
  forallb p (rev l) = forallb p l.
Proof.
  induction l as [|c l IH]; simpl; [reflexivity|].
  rewrite forallb_app, IH. simpl. rewrite andb_true_r. apply andb_comm.
Qed.

Lemma lstrip_by_decompose (p : N -> bool) (s : str) :
  exists pre, s = pre ++ lstrip_by p s /\ forallb p pre = true.
Proof.
  induction s as [|c s (pre & IH & Hpre)]; simpl.
  - exists []. auto.
  - destruct (p c) eqn:E.
    + exists (c :: pre). simpl. rewrite E, Hpre. split; [f_equal; exact IH | reflexivity].
    + exists []. auto.
Qed.

(** A text is white space, what [strip] gives, and white space. *)
Lemma strip_decompose (t : str) :
  exists pre post,
    t = pre ++ strip t ++ post /\
    forallb isspace pre = true /\ forallb isspace post = true.
Proof.
  destruct (lstrip_by_decompose isspace t) as (pre & Ht & Hpre).
  destruct (lstrip_by_decompose isspace (rev (lstrip_by isspace t)))
    as (post & Hrev & Hpost).
  exists pre, (rev post). unfold strip, rstrip_by.
  split; [|split; [exact Hpre | rewrite forallb_rev; exact Hpost]].
  rewrite Ht at 1. f_equal.
  rewrite <- (rev_involutive (lstrip_by isspace t)) at 1.
  rewrite Hrev at 1. apply rev_app_distr.
Qed.

Lemma has_text_app (a b : str) : has_text (a ++ b) = has_text a || has_text b.
Proof. apply existsb_app. Qed.

Lemma has_text_blank (s : str) : forallb isspace s = true -> has_text s = false.
Proof.
  induction s as [|c s IH]; simpl; [reflexivity|].
  intros [Hc Hs]%andb_true_iff. rewrite Hc. simpl. auto.
Qed.

(** A text is blank, for [strip], exactly when it has no character that is
    not white space. *)
Lemma has_text_strip (t : str) : has_text t = negb (bool_decide (strip t = [])).
Proof.
  destruct (strip_decompose t) as (pre & post & Ht & Hpre & Hpost).
  rewrite Ht at 1. rewrite !has_text_app.
  rewrite (has_text_blank pre Hpre), (has_text_blank post Hpost).
  rewrite orb_false_r. cbn [orb].
  case_bool_decide as E.
  - rewrite E. reflexivity.
  - apply strip_trimmed in E as (c & rest & _ & _ & -> & _ & Hc & _).
    simpl. rewrite Hc. reflexivity.
Qed.

(** The loop body, in one equation. *)
Lemma clean_tag_spec (t : str) :
  clean_tag t
  = if bool_decide (strip t = []) then None
    else Some (without_spaces
                 (if startswith (strip t) hash then strip t
                  else hash ++ strip t)).
Proof.
  unfold clean_tag. cbv zeta. rewrite replace_space.
  change (truthy (PyStr (strip t))) with (negb (bool_decide (strip t = []))).
  rewrite negb_involutive.
  case_bool_decide as E; [reflexivity|].
  destruct (strip t) as [|c rest] eqn:Es; [contradiction|].
  rewrite startswith_hash. destruct (c =? 35)%N eqn:Ec; cbn [negb];
    [reflexivity|].
  unfold lstrip. rewrite lstrip_by_head; [reflexivity|].
  change hash with [35%N]. simpl. rewrite Ec. reflexivity.
Qed.

Lemma after_hashes_hash (s : str) : after_hashes (hash ++ s) = after_hashes s.
Proof. reflexivity. Qed.

(** What the loop appends for a tag is the token of that tag. *)
Lemma clean_tag_token (t r : str) : clean_tag t = Some r -> token_of t r.
Proof.
  intros H. pose proof (clean_tag_shape t r H) as (_ & Hhash & _ & _).
  rewrite clean_tag_spec in H.
  case_bool_decide as E; [discriminate|].
  assert (Hr : without_spaces
                 (if startswith (strip t) hash then strip t
                  else hash ++ strip t) = r) by congruence.
  clear H.
  destruct (strip_decompose t) as (pre & post & Ht & Hpre & Hpost).
  pose proof (strip_trimmed t E) as Htrim.
  exists pre, (strip t), post.
  split; [exact Ht|]. split; [exact Hpre|]. split; [exact Hpost|].
  split; [exact Htrim|]. split; [exact Hhash|].
  destruct Htrim as (c & rest & _ & _ & Hfront & _ & Hc & _).
  rewrite Hfront in Hr |- *. rewrite startswith_hash in Hr.
  assert (Hbody : without_spaces (c :: rest) = c :: without_spaces rest).
  { unfold without_spaces. simpl. rewrite isspace_space by assumption.
    reflexivity. }
  destruct (c =? 35)%N eqn:Ec.
  - subst r. split; [reflexivity|].
    intros Hdouble. unfold one_leading_hash. rewrite Hdouble.
    rewrite Hbody. apply N.eqb_eq in Ec. subst c. reflexivity.
  - assert (Er : r = 35%N :: c :: without_spaces rest).
    { rewrite <- Hr, <- Hbody. reflexivity. }
    rewrite Hbody, Er. split; [reflexivity|].
    intros _. apply one_leading_hash_cons. assumption.
Qed.

Lemma filter_has_text (t : str) (tags : list str) :
  List.filter has_text (t :: tags)
  = if bool_decide (strip t = []) then List.filter has_text tags
    else t :: List.filter has_text tags.
Proof.
  simpl. rewrite has_text_strip. destruct (bool_decide (strip t = []));
    reflexivity.
Qed.

(** The tags the loop keeps are the tags that have text, and what it
    collects are their tokens, in order. *)
Lemma normalize_tags_tokens (tags : list str) :
  Forall2 token_of (List.filter has_text tags) (normalize_tags tags).
Proof.
  induction tags as [|t tags IH]; [constructor|].
  rewrite filter_has_text. cbn [normalize_tags].
  destruct (clean_tag t) as [r|] eqn:E.
  - pose proof (clean_tag_token t r E) as Htok.
    rewrite clean_tag_spec in E.
    destruct (bool_decide (strip t = [])); [discriminate|].
    constructor; assumption.
  - rewrite clean_tag_spec in E.
    destruct (bool_decide (strip t = [])); [exact IH | discriminate].
Qed.

(** The result on a list of string tags: its tokens are the tokens of the
    first ten tags that have text. *)
Lemma schema_tokens (tags : list str) :
  let r := join space (firstn 10 (normalize_tags tags)) in
  r = join space (tokens r) /\
  tokens r = firstn 10 (normalize_tags tags) /\
  length (tokens r) = Nat.min (length (List.filter has_text tags)) 10 /\
  Forall2 token_of (firstn 10 (List.filter has_text tags)) (tokens r).
Proof.
  cbv zeta.
  assert (Htok : tokens (join space (firstn 10 (normalize_tags tags)))
                 = firstn 10 (normalize_tags tags)).
  { apply tokens_join. apply Forall_take.
    eapply Forall_impl; [apply normalize_tags_shape|].
    intros ? (H1 & _ & H3). auto. }
  pose proof (normalize_tags_tokens tags) as Hall.
  rewrite Htok. split; [reflexivity|]. split; [reflexivity|]. split.
  - rewrite length_take, <- (Forall2_length _ _ _ Hall). apply Nat.min_comm.
  - apply Forall2_take. exact Hall.
Qed.

(** C4, as the code has it.  For a response that parses to an object whose
    [hashtags] is a list of [N] strings, of which [K] have a character that
    is not white space, the result is [min K 10] tokens joined by single
    spaces, one for each of the first ten such tags, in order.  The token
    of a tag is the tag without the white space around it and without its
    spaces (U+0020), with a [#] in front: it is not empty, holds no space,
    begins with [#], and has exactly one leading [#] unless the tag so
    trimmed and freed of spaces begins with two.  [K] is [N] when no tag is
    blank. *)
Theorem parse_hashtags_schema (loads : str -> option pyval)
    (so : pyval -> result str) (raw : str) (d : dict) (tags : list str) :
  strip raw <> [] ->
  loads (strip raw) = Some (PyDict d) ->
  dict_lookup d (lit "hashtags") = Some (PyList (map PyStr tags)) ->
  let kept := normalize_tags tags in
  exists r,
    _parse_hashtags loads so (PyStr raw) = Ok r /\
    r = join space (tokens r) /\
    tokens r = firstn 10 kept /\
    length (tokens r) = Nat.min (length kept) 10 /\
    (length kept <= length tags)%nat /\
    (Forall (fun t => strip t <> []) tags -> length kept = length tags) /\
    Forall (fun t => t <> [] /\ startswith t hash = true /\ spaceless t = true)
      (tokens r) /\
    (Forall (fun t => startswith (strip t) hash = false) tags ->
     Forall (fun t => one_leading_hash t = true) (tokens r)) /\
    length (tokens r) = Nat.min (length (List.filter has_text tags)) 10 /\
    Forall2 token_of (firstn 10 (List.filter has_text tags)) (tokens r).
Proof.
  intros Hne Hloads Htags kept. subst kept.
  exists (join space (firstn 10 (normalize_tags tags))).
  destruct (schema_tokens tags) as (_ & Htok & Hcount & Hspec).
  assert (Hshape :
            Forall (fun r => r <> [] /\ startswith r hash = true
                             /\ spaceless r = true)
              (firstn 10 (normalize_tags tags))).
  { apply Forall_take. apply normalize_tags_shape. }
  rewrite Htok in Hcount, Hspec |- *.
  destruct (normalize_tags_length tags) as [Hle Heq].
  split; [|split; [|split; [|split; [|split; [|split; [|split; [|split; [|split]]]]]]]];
    auto.
  - rewrite parse_hashtags_str. unfold parse_text.
    destruct (truthy (PyStr (strip raw))) eqn:E; cbn [negb].
    + rewrite Hloads. apply tags_of_schema_payload. assumption.
    + apply truthy_str in E. contradiction.
  - rewrite length_take. apply Nat.min_comm.
  - intros Hplain. apply Forall_take. apply normalize_tags_one_hash.
    assumption.
Qed.

Lemma parse_hashtags_schema_witness :
  exists r,
    _parse_hashtags Json.loads str_of_scalar (PyStr three_tags_one_blank) = Ok r
    /\ tokens r = [lit "#AI"; lit "#SME"].
Proof.
  destruct (parse_hashtags_schema Json.loads str_of_scalar three_tags_one_blank
              [(lit "hashtags",
                PyList [PyStr (lit "AI"); PyStr (lit " "); PyStr (lit "SME")])]
              [lit "AI"; lit " "; lit "SME"])
    as (r & Hr & _ & Htok & _).
  - vm_compute. discriminate.
  - vm_compute. reflexivity.
  - vm_compute. reflexivity.
  - exists r. split; [exact Hr|]. rewrite Htok. vm_compute. reflexivity.
Defined.

(** C4, as stated, fails.  A list of three tags of which one is blank gives
    two tokens, not three; and a tag with a tab inside keeps the tab, which
    is white space. *)
Lemma parse_hashtags_schema_not_as_stated :
  Json.loads three_tags_one_blank
  = Some (PyDict [(lit "hashtags",
                   PyList [PyStr (lit "AI"); PyStr (lit " "); PyStr (lit "SME")])]) /\
  _parse_hashtags Json.loads str_of_scalar (PyStr three_tags_one_blank)
  = Ok (lit "#AI #SME") /\
  ~ schema_claim_as_stated three_tags_one_blank 3 /\
  Json.loads tag_with_tab
  = Some (PyDict [(lit "hashtags", PyList [PyStr (lit "AI" ++ [9%N] ++ lit "Ops")])]) /\
  _parse_hashtags Json.loads str_of_scalar (PyStr tag_with_tab)
  = Ok (lit "#AI" ++ [9%N] ++ lit "Ops") /\
  ~ schema_claim_as_stated tag_with_tab 1.
Proof.
  split; [vm_compute; reflexivity|].
  split; [vm_compute; reflexivity|].
  split.
  { intros (r & Hr & Hlen & _). vm_compute in Hr. injection Hr as <-.
    vm_compute in Hlen. discriminate Hlen. }
  split; [vm_compute; reflexivity|].
  split; [vm_compute; reflexivity|].
  intros (r & Hr & _ & Hall). vm_compute in Hr. injection Hr as <-.
  apply Forall_inv in Hall. destruct Hall as [_ Hw].
  vm_compute in Hw. discriminate Hw.
Qed.

(** ** Recovery of an object from the text around it *)



(** ** The metadata of the hashtag pipeline *)

(** C10.  When the completion result has no [content], or has [None] there,
    [generate_hashtags] returns, raising nothing: the hashtags are the empty
    string and the metadata holds one entry, [llm], which has each of the
    six keys; a key the completion result holds is copied with its value. *)
Theorem generate_hashtags_without_content (loads : str -> option pyval)
    (so : pyval -> result str)
    (completion : list pyval -> dict -> result dict)
    (post topic business_objective : str) (config llm_result : dict) :
  completion (hashtag_messages post topic business_objective) config
  = Ok llm_result ->
  dict_lookup llm_result (lit "content") = None
  \/ dict_lookup llm_result (lit "content") = Some PyNone ->
  generate_hashtags loads so completion post topic business_objective config
  = Ok ([], [ (lit "llm", PyDict (llm_entry llm_result)) ]) /\
  Forall (fun key =>
            exists v,
              dict_lookup (llm_entry llm_result) key = Some v /\
              forall v', dict_lookup llm_result key = Some v' -> v = v')
    llm_keys.
Proof.
  intros Hcall Hcontent. split.
  - unfold generate_hashtags. rewrite Hcall. cbn [bind_result].
    unfold dict_get. destruct Hcontent as [-> | ->]; reflexivity.
  - unfold llm_keys, llm_entry, dict_get.
    repeat constructor;
      (eexists; split; [reflexivity | intros v' ->; reflexivity]).
Qed.

Lemma generate_hashtags_without_content_witness :
  generate_hashtags Json.loads str_of_scalar
    (fun _ _ => Ok completion_without_content)
    (lit "A post") (lit "AI") (lit "leads") []
  = Ok ([],
        [ (lit "llm",
           PyDict [ (lit "model", PyStr (lit "gpt-4o-mini"));
                    (lit "attempts", PyInt 3);
                    (lit "usage", PyDict []);
                    (lit "length", PyDict []);
                    (lit "estimated_cost_usd", PyFloat float_zero);
                    (lit "error", PyStr (lit "empty completion")) ]) ]).
Proof.
  apply (generate_hashtags_without_content Json.loads str_of_scalar
           (fun _ _ => Ok completion_without_content)
           (lit "A post") (lit "AI") (lit "leads") []
           completion_without_content).
  - reflexivity.
  - left. vm_compute. reflexivity.
Defined.

(** ** The image pipeline: credential, success and failure *)

(** C5.  With no [api_key] in the config and no [OPENAI_API_KEY] in the
    environment, [generate_post_image] returns [None] and a metadata whose
    [error] is a text that is not empty; the world is as before, so no
    request reached the image service, whatever the platform. *)
Theorem generate_post_image_no_credential (P : Platform) (w : World)
    (post topic : str) (config : dict) :
  dict_lookup config (lit "api_key") = None ->
  environ w !! lit "OPENAI_API_KEY" = None ->
  generate_post_image P post topic config w
  = (w, Ok (None, [ (lit "error", PyStr (lit "OPENAI_API_KEY not set")) ])) /\
  lit "OPENAI_API_KEY not set" <> [] /\
  requests (fst (generate_post_image P post topic config w)) = requests w.
Proof.
  intros Hconfig Henv.
  assert (H : generate_post_image P post topic config w
              = (w, Ok (None, [ (lit "error", PyStr (lit "OPENAI_API_KEY not set")) ]))).
  { unfold generate_post_image, bind, getenv, dict_get.
    rewrite Hconfig. cbn [truthy]. rewrite Henv. reflexivity. }
  rewrite H. split; [reflexivity|]. split; [discriminate | reflexivity].
Qed.

Lemma generate_post_image_no_credential_witness :
  generate_post_image example_platform (lit "A post") (lit "AI") [] example_world
  = (example_world,
     Ok (None, [ (lit "error", PyStr (lit "OPENAI_API_KEY not set")) ])).
Proof.
  apply (generate_post_image_no_credential example_platform example_world
           (lit "A post") (lit "AI") []).
  - reflexivity.
  - vm_compute. reflexivity.
Defined.

Lemma mkstemp_inner_ok (P : Platform) (existing : gmap str bytes)
    (dir pre suf : str) (names : list str) (file : str) :
  mkstemp_inner P existing dir pre suf names = Ok file ->
  exists name,
    In name names /\ file = path_join dir (pre ++ name ++ suf)
    /\ existing !! file = None.
Proof.
  induction names as [|name names IH]; simpl; [discriminate|].
  destruct (existing !! path_join dir (pre ++ name ++ suf)) eqn:E.
  - intros H. destruct (IH H) as (n & Hin & Hfile & Hfree). eauto.
  - destruct (create_error P _); [discriminate|].
    intros [= <-]. eauto.
Qed.

(** The run of [generate_post_image] when every step goes well. *)
Lemma generate_post_image_succeeds (P : Platform) (w : World)
    (post topic : str) (config : dict) (timeout : spec_float)
    (response : ImagesResponse) (item : Image) (others : list Image)
    (c : N) (payload : str) (image_bytes : bytes) (path : str) :
  let api_key := dict_get config (lit "api_key") PyNone in
  let image_model :=
    dict_get config (lit "image_model") (PyStr (lit "gpt-image-1")) in
  let image_size :=
    dict_get config (lit "image_size") (PyStr (lit "1024x1024")) in
  let req := {| req_model := image_model;
                req_prompt := image_prompt post topic;
                req_size := image_size |} in
  truthy api_key = true ->
  py_float P (dict_get config (lit "timeout") (PyInt 60)) = Ok timeout ->
  openai_init P api_key timeout = None ->
  images_generate P
    {| client_api_key := api_key; client_timeout := timeout |} req
  = Ok response ->
  data response = Some (item :: others) ->
  b64_json item = Some (c :: payload) ->
  b64decode P (c :: payload) = Ok image_bytes ->
  mkstemp_inner P (files w) (gettempdir P) (lit "pbcg_") (lit ".png")
    (random_names P) = Ok path ->
  write_error P path image_bytes = None ->
  generate_post_image P post topic config w
  = ({| environ := environ w;
        files := <[path := image_bytes]> (files w);
        requests := requests w ++ [req] |},
     Ok (Some path,
         [ (lit "model", image_model); (lit "size", image_size);
           (lit "path", PyStr path) ])).
Proof.
  intros api_key image_model image_size req
    Hkey Hfloat Hinit Hgen Hdata Hb64 Hdec Hname Hwrite.
  unfold_image. fold api_key image_model image_size.
  rewrite Hkey. cbn [negb]. rewrite Hkey. cbn [negb].
  rewrite Hfloat, Hinit. fold req. rewrite Hgen, Hdata. cbn [first_item].
  rewrite Hb64, Hdec. cbn [files]. rewrite Hname, Hwrite. reflexivity.
Qed.

(** C8.  When [generate_post_image] returns a path, the image service
    answered the request with a first item whose [b64_json] decodes to some
    bytes; the path is that of a file in the temporary directory named
    [pbcg_], a drawn name, [.png]; no file had that path before; the file
    is there afterwards and holds exactly the decoded bytes; every other
    file is as before; and the [path] of the metadata is the path
    returned. *)
Theorem generate_post_image_success (P : Platform) (w w' : World)
    (post topic : str) (config : dict) (path : str) (meta : dict) :
  generate_post_image P post topic config w = (w', Ok (Some path, meta)) ->
  exists client req response item others payload image_bytes name,
    images_generate P client req = Ok response /\
    data response = Some (item :: others) /\
    b64_json item = Some payload /\
    b64decode P payload = Ok image_bytes /\
    In name (random_names P) /\
    path = path_join (gettempdir P) (lit "pbcg_" ++ name ++ lit ".png") /\
    files w !! path = None /\
    files w' !! path = Some image_bytes /\
    (forall other, other <> path -> files w' !! other = files w !! other) /\
    dict_lookup meta (lit "path") = Some (PyStr path).
Proof.
  intros H. unfold_image.
  repeat (next_case; try discriminate);
    repeat match goal with
      | H : (_, _) = (_, _) |- _ => injection H as ? ?; subst
      | H : Ok _ = Ok _ |- _ => injection H as ?; subst
      | H : Some _ = Some _ |- _ => injection H as ?; subst
      | H : first_item _ = Ok _ |- _ =>
          unfold first_item in H; repeat (next_case; try discriminate)
      end;
    try discriminate.
  all: match goal with
       | H : mkstemp_inner _ _ _ _ _ _ = Ok _ |- _ =>
           apply mkstemp_inner_ok in H as (name & Hin & Hname & Hfree)
       end.
  all: do 8 eexists; repeat split; try eassumption; try reflexivity.
  all: cbn [files]; try (apply lookup_insert_eq).
  all: intros other Hother; apply lookup_insert_ne; congruence.
Qed.

Lemma generate_post_image_success_witness :
  exists w',
    generate_post_image example_platform (lit "A post") (lit "AI")
      config_with_key example_world
    = (w', Ok (Some example_path,
               [ (lit "model", PyStr (lit "gpt-image-1"));
                 (lit "size", PyStr (lit "1024x1024"));
                 (lit "path", PyStr example_path) ])) /\
    files example_world !! example_path = None /\
    files w' !! example_path = Some [104; 105]%N /\
    files w' !! lit "/tmp/pbcg_k3x9q2ab.png" = Some [1; 2; 3]%N.
Proof.
  exists (fst (generate_post_image example_platform (lit "A post") (lit "AI")
                 config_with_key example_world)).
  assert (Hrun :
            generate_post_image example_platform (lit "A post") (lit "AI")
              config_with_key example_world
            = (fst (generate_post_image example_platform (lit "A post")
                      (lit "AI") config_with_key example_world),
               Ok (Some example_path,
                   [ (lit "model", PyStr (lit "gpt-image-1"));
                     (lit "size", PyStr (lit "1024x1024"));
                     (lit "path", PyStr example_path) ]))).
  { vm_compute. reflexivity. }
  split; [exact Hrun|].
  destruct (generate_post_image_success example_platform example_world _
              (lit "A post") (lit "AI") config_with_key example_path _ Hrun)
    as (client & req & response & item & others & payload & image_bytes & name
        & Hgen & Hdata & Hb64 & Hdec & _ & _ & Hfree & Hfile & Hothers & _).
  cbn [images_generate example_platform] in Hgen. injection Hgen as <-.
  cbn [data] in Hdata. injection Hdata as <- <-.
  cbn [b64_json] in Hb64. injection Hb64 as <-.
  assert (Hbytes : image_bytes = [104; 105]%N).
  { cbn [b64decode example_platform] in Hdec.
    assert (E : Base64.b64decode (lit "aGk=") = Ok [104; 105]%N)
      by (vm_compute; reflexivity).
    rewrite E in Hdec. injection Hdec as <-. reflexivity. }
  subst image_bytes. split; [exact Hfree|]. split; [exact Hfile|].
  rewrite Hothers; [vm_compute; reflexivity|].
  vm_compute. intros E. discriminate E.
Defined.

(** The two ways the guarded block returns. *)
Lemma image_attempt_returns (P : Platform) (client : Client) (prompt : str)
    (image_model image_size : pyval) (w w' : World) (r : option str)
    (meta : dict) :
  image_attempt P client prompt image_model image_size w = (w', Ok (r, meta)) ->
  match r with
  | Some path =>
      meta = [ (lit "model", image_model); (lit "size", image_size);
               (lit "path", PyStr path) ]
  | None =>
      meta = [ (lit "error", PyStr (lit "Image response missing b64_json"));
               (lit "model", image_model) ]
  end.
Proof.
  intros H. unfold_image.
  repeat (next_case; try discriminate);
    repeat match goal with
      | H : (_, _) = (_, _) |- _ => injection H as ? ?; subst
      | H : Ok _ = Ok _ |- _ => injection H as ?; subst
      end;
    try discriminate; reflexivity.
Qed.

(** Reading the credential returns, and leaves the world as it is. *)
Lemma api_key_step (config : dict) (w : World) :
  exists api_key,
    (if truthy (dict_get config (lit "api_key") PyNone)
     then ret (dict_get config (lit "api_key") PyNone)
     else getenv (lit "OPENAI_API_KEY")) w
    = (w, Ok api_key).
Proof.
  destruct (truthy (dict_get config (lit "api_key") PyNone)).
  - eexists. reflexivity.
  - eexists. reflexivity.
Qed.

(** The outcomes of [generate_post_image].  It raises only what the
    conversion of the configured timeout to a float raises or what the
    constructor of the client raises; both run before the guarded block.
    Otherwise it returns.  When it returns no path, the metadata has an
    [error] text: a fixed message, which is not empty, or the text of the
    exception the guarded block raised, which is empty when that exception
    has no text. *)
Lemma generate_post_image_outcome (P : Platform) (w : World)
    (post topic : str) (config : dict) :
  match generate_post_image P post topic config w with
  | (_, Raise e) =>
      py_float P (dict_get config (lit "timeout") (PyInt 60)) = Raise e
      \/ exists api_key timeout, openai_init P api_key timeout = Some e
  | (_, Ok (Some path, meta)) =>
      dict_lookup meta (lit "path") = Some (PyStr path)
  | (w', Ok (None, meta)) =>
      exists msg,
        dict_lookup meta (lit "error") = Some (PyStr msg) /\
        (msg <> [] \/
         exists client image_model image_size w1 exc,
           image_attempt P client (image_prompt post topic)
             image_model image_size w1 = (w', Raise exc)
           /\ exn_text exc = msg)
  end.
Proof.
  unfold generate_post_image. unfold bind at 1.
  destruct (api_key_step config w) as [api_key ->].
  unfold OpenAI, try_except, bind, lift, ret, raise.
  destruct (truthy api_key); cbn [negb].
  2:{ exists (lit "OPENAI_API_KEY not set"). split; [reflexivity|].
      left. discriminate. }
  destruct (py_float P (dict_get config (lit "timeout") (PyInt 60)))
    as [timeout|e] eqn:Efloat; [|left; reflexivity].
  destruct (openai_init P api_key timeout) as [e|] eqn:Einit.
  { right. eauto. }
  match goal with
  | |- context [image_attempt P ?c ?p ?m ?s w] =>
      destruct (image_attempt P c p m s w) as [w1 [[[path|] meta]|exc]] eqn:Erun
  end.
  - apply image_attempt_returns in Erun. subst meta. reflexivity.
  - apply image_attempt_returns in Erun. subst meta.
    exists (lit "Image response missing b64_json"). split; [reflexivity|].
    left. discriminate.
  - exists (exn_text exc). split; [reflexivity|]. right.
    do 5 eexists. split; [exact Erun | reflexivity].
Qed.

(** Two runs that do not end as the specification words it.  A config
    whose [timeout] is [None] makes [float] raise a [TypeError] before the
    guarded block is entered, and the exception reaches the caller.  And
    when the image service fails with an exception that has no text, the
    [error] of the metadata is the empty string. *)
Lemma generate_post_image_not_as_stated :
  snd (generate_post_image example_platform (lit "A post") (lit "AI")
         config_with_bad_timeout example_world)
  = Raise (TypeError
             (lit "float() argument must be a string or a real number, not 'NoneType'")) /\
  ~ never_raises_as_stated
      (generate_post_image example_platform (lit "A post") (lit "AI")
         config_with_bad_timeout example_world) /\
  snd (generate_post_image silent_failure_platform (lit "A post") (lit "AI")
         config_with_key example_world)
  = Ok (None, [ (lit "error", PyStr []);
                (lit "model", PyStr (lit "gpt-image-1"));
                (lit "size", PyStr (lit "1024x1024")) ]) /\
  ~ never_raises_as_stated
      (generate_post_image silent_failure_platform (lit "A post") (lit "AI")
         config_with_key example_world).
Proof.
  split; [vm_compute; reflexivity|].
  split; [vm_compute; intros H; exact H|].
  split; [vm_compute; reflexivity|].
  unfold never_raises_as_stated.
  assert (E : snd (generate_post_image silent_failure_platform (lit "A post")
                     (lit "AI") config_with_key example_world)
              = Ok (None, [ (lit "error", PyStr []);
                            (lit "model", PyStr (lit "gpt-image-1"));
                            (lit "size", PyStr (lit "1024x1024")) ]))
    by (vm_compute; reflexivity).
  rewrite E. intros (msg & Hmsg & Hne).
  vm_compute in Hmsg. injection Hmsg as <-. apply Hne. reflexivity.
Qed.

(** C1, at a config with a credential and [None] for [timeout].  The
    conversion [float(config.get("timeout", 60))] stands before the [try]:
    its [TypeError] is not turned into an [error] of the metadata, as the
    credential guard and the [except] branch do for every other failure,
    but reaches the caller.  The claim asks for [(None, metadata)]. *)
Theorem generate_post_image_timeout_raises :
  generate_post_image example_platform (lit "A post") (lit "AI")
    config_with_bad_timeout example_world
  = (example_world,
     Raise (TypeError
              (lit "float() argument must be a string or a real number, not 'NoneType'")))
  /\ ~ never_raises_as_stated
        (generate_post_image example_platform (lit "A post") (lit "AI")
           config_with_bad_timeout example_world).
Proof.
  split; [vm_compute; reflexivity|].
  vm_compute. intros H. exact H.
Qed.


(** ** More on the extractor *)

(** X1.  When the stripped text parses, strictly, to a value that is not an
    object (an array, a string, a number, [true], [null]),
    [_parse_hashtags] raises [AttributeError]: [payload.get] is called on
    whatever [json.loads] returns, and the raw-text fallback is not
    reached. *)
Theorem parse_hashtags_not_object (loads : str -> option pyval)
    (so : pyval -> result str) (raw : str) (v : pyval) :
  strip raw <> [] ->
  loads (strip raw) = Some v ->
  (forall d, v <> PyDict d) ->
  _parse_hashtags loads so (PyStr raw) = Raise (AttributeError v "get").
Proof.
  intros Hne Hloads Hv. rewrite parse_hashtags_str. unfold parse_text.
  destruct (truthy (PyStr (strip raw))) eqn:E; cbn [negb].
  - rewrite Hloads. destruct v; try reflexivity.
    exfalso. eapply Hv. reflexivity.
  - apply truthy_str in E. contradiction.
Qed.

Lemma parse_hashtags_not_object_witness :
  _parse_hashtags Json.loads str_of_scalar (PyStr bare_array_example)
  = Raise (AttributeError (PyList [PyStr (lit "#AI"); PyStr (lit "#SME")]) "get").
Proof.
  apply (parse_hashtags_not_object Json.loads str_of_scalar bare_array_example).
  - vm_compute. discriminate.
  - vm_compute. reflexivity.
  - intros d. discriminate.
Defined.

(** X2.  When the stripped text parses to an object that has no
    [hashtags] key, or has a value there that is not a list,
    [_parse_hashtags] returns the empty string. *)
Theorem parse_hashtags_no_list (loads : str -> option pyval)
    (so : pyval -> result str) (raw : str) (d : dict) :
  strip raw <> [] ->
  loads (strip raw) = Some (PyDict d) ->
  dict_lookup d (lit "hashtags") = None
  \/ (exists v, dict_lookup d (lit "hashtags") = Some v
                /\ forall tags, v <> PyList tags) ->
  _parse_hashtags loads so (PyStr raw) = Ok [].
Proof.
  intros Hne Hloads Hkey. rewrite parse_hashtags_str. unfold parse_text.
  destruct (truthy (PyStr (strip raw))) eqn:E; cbn [negb].
  - rewrite Hloads. unfold tags_of_payload, dict_get.
    destruct Hkey as [-> | (v & -> & Hv)]; [reflexivity|].
    destruct v; try reflexivity. exfalso. eapply Hv. reflexivity.
  - apply truthy_str in E. contradiction.
Qed.

Lemma parse_hashtags_no_list_witness :
  _parse_hashtags Json.loads str_of_scalar (PyStr other_key_example) = Ok [].
Proof.
  apply (parse_hashtags_no_list Json.loads str_of_scalar other_key_example
           [(lit "tags", PyList [PyStr (lit "AI")])]).
  - vm_compute. discriminate.
  - vm_compute. reflexivity.
  - left. vm_compute. reflexivity.
Defined.

(** X3.  On a [content] that is a JSON value other than a string ([None],
    a truth value, a number, a list or a dict), [_parse_hashtags] returns
    the empty string when the value is false ([None], [False], zero, an
    empty list or dict) and raises [AttributeError] when it is true, since
    none of these has a [strip]. *)
Theorem parse_hashtags_not_text (loads : str -> option pyval)
    (so : pyval -> result str) (v : pyval) :
  (forall s, v <> PyStr s) ->
  _parse_hashtags loads so v
  = if truthy v then Raise (AttributeError v "strip") else Ok [].
Proof.
  intros Hv. unfold _parse_hashtags, py_or.
  destruct (truthy v) eqn:E.
  - destruct v; try reflexivity. exfalso. eapply Hv. reflexivity.
  - reflexivity.
Qed.

Lemma parse_hashtags_not_text_witness :
  _parse_hashtags Json.loads str_of_scalar (PyInt 7)
  = Raise (AttributeError (PyInt 7) "strip")
  /\ _parse_hashtags Json.loads str_of_scalar (PyList []) = Ok [].
Proof.
  split.
  - apply (parse_hashtags_not_text Json.loads str_of_scalar (PyInt 7)).
    intros s. discriminate.
  - apply (parse_hashtags_not_text Json.loads str_of_scalar (PyList [])).
    intros s. discriminate.
Defined.

Lemma clean_tag_idempotent_witness :
  clean_tag (lit "  ai ops ") = Some (lit "#aiops")
  /\ clean_tag (lit "#aiops") = Some (lit "#aiops").
Proof.
  assert (H : clean_tag (lit "  ai ops ") = Some (lit "#aiops"))
    by (vm_compute; reflexivity).
  split; [exact H|].
  apply (clean_tag_idempotent (lit "  ai ops ") (lit "#aiops") H).
Defined.

(** ** The shape of every result of the extractor *)

Lemma join_trimmed (t : str) (toks : list str) :
  Forall trimmed (t :: toks) -> trimmed (join space (t :: toks)).
Proof.
  revert t. induction toks as [|t2 toks IH]; intros t Hall.
  - apply Forall_inv in Hall. exact Hall.
  - change (join space (t :: t2 :: toks))
      with (t ++ space ++ join space (t2 :: toks)).
    inversion Hall as [|? ? Ht Hrest]; subst.
    destruct (IH t2 Hrest) as (_ & _ & pre' & d' & _ & Hback & _ & Hd').
    destruct Ht as (c & rest & _ & _ & Hfront & _ & Hc & _).
    rewrite Hback, Hfront.
    exists c, (rest ++ space ++ pre' ++ [d']),
      ((c :: rest) ++ space ++ pre'), d'.
    repeat split; try assumption.
    rewrite <- !app_assoc. reflexivity.
Qed.

Lemma normalize_tags_trimmed (tags : list str) :
  Forall trimmed (normalize_tags tags).
Proof.
  induction tags as [|t tags IH]; simpl; [constructor|].
  destruct (clean_tag t) as [r|] eqn:E; [|exact IH].
  constructor; [|exact IH]. eapply clean_tag_trimmed. eassumption.
Qed.

(** The loop, whatever the types of the elements: when it ends without an
    exception it has appended the normalized tags of the texts of the
    elements. *)
Lemma clean_loop_returns (so : pyval -> result str) (tags : list pyval)
    (cleaned r : list str) :
  clean_loop so tags cleaned = Ok r ->
  exists texts,
    length texts = length tags /\ r = cleaned ++ normalize_tags texts.
Proof.
  revert cleaned. induction tags as [|tag tags IH]; intros cleaned; simpl.
  - intros [= <-]. exists []. rewrite app_nil_r. auto.
  - destruct (py_str so tag) as [s|e]; cbn [bind_result]; [|discriminate].
    destruct (clean_tag s) as [t|] eqn:E; intros H;
      destruct (IH _ H) as (texts & Hlen & ->);
      exists (s :: texts); simpl; rewrite E, Hlen; split; try reflexivity.
    rewrite <- app_assoc. reflexivity.
Qed.

(** What [_parse_hashtags] makes of a parsed payload, when it returns. *)
Lemma tags_of_payload_returns (so : pyval -> result str) (payload : pyval)
    (r : str) :
  tags_of_payload so payload = Ok r ->
  exists toks,
    r = join space toks /\ (length toks <= 10)%nat
    /\ Forall hashtag_token toks /\ Forall trimmed toks.
Proof.
  unfold tags_of_payload.
  destruct payload as [| | | | |items|d]; try discriminate.
  destruct (dict_get d (lit "hashtags") (PyList [])) as [| | | | |tags|d'];
    try solve [ intros [= <-]; exists [];
                split; [reflexivity|]; split; [simpl; lia|]; split; constructor ].
  destruct (clean_loop so tags []) as [cleaned|e] eqn:E; cbn [bind_result];
    [|discriminate].
  intros [= <-]. apply clean_loop_returns in E as (texts & _ & ->).
  cbn [app]. exists (firstn 10 (normalize_tags texts)).
  split; [reflexivity|]. split; [rewrite length_take; lia|].
  split; apply Forall_take.
  - apply normalize_tags_shape.
  - apply normalize_tags_trimmed.
Qed.

(** The ways [_parse_hashtags] returns on text: with the stripped text,
    when that is empty or does not parse, or with what it makes of a
    payload. *)
Lemma parse_hashtags_returns (loads : str -> option pyval)
    (so : pyval -> result str) (raw r : str) :
  _parse_hashtags loads so (PyStr raw) = Ok r ->
  (r = strip raw /\ (strip raw = [] \/ loads (strip raw) = None))
  \/ exists payload, tags_of_payload so payload = Ok r.
Proof.
  rewrite parse_hashtags_str. unfold parse_text.
  destruct (truthy (PyStr (strip raw))) eqn:E; cbn [negb].
  - destruct (loads (strip raw)) as [payload|] eqn:Hstrict.
    + intros H. right. eauto.
    + destruct (_ || _).
      * intros [= <-]. left. auto.
      * destruct (loads (slice _ _ _)) as [payload|].
        -- intros H. right. eauto.
        -- intros [= <-]. left. auto.
  - apply truthy_str in E. rewrite E. intros [= <-]. left. auto.
Qed.

(** X5.  Whenever [_parse_hashtags] returns on a text, the result is
    either the stripped text itself, which happens only when that is empty
    or fails the strict parse, or at most ten tokens joined by single
    spaces, each token not empty, beginning with [#] and free of spaces;
    this whatever the types of the elements of the tag list. *)
Theorem parse_hashtags_result_shape (loads : str -> option pyval)
    (so : pyval -> result str) (raw r : str) :
  _parse_hashtags loads so (PyStr raw) = Ok r ->
  (r = strip raw /\ (strip raw = [] \/ loads (strip raw) = None))
  \/ (r = join space (tokens r) /\ (length (tokens r) <= 10)%nat
      /\ Forall hashtag_token (tokens r)).
Proof.
  intros H. apply parse_hashtags_returns in H as [H|[payload H]];
    [left; exact H|].
  right. apply tags_of_payload_returns in H as (toks & -> & Hlen & Htok & _).
  rewrite tokens_join; [auto|].
  eapply Forall_impl; [exact Htok|]. intros t (H1 & _ & H3). auto.
Qed.

Lemma parse_hashtags_result_shape_witness :
  tokens (lit "#AI #SME") = [lit "#AI"; lit "#SME"]
  /\ Forall hashtag_token (tokens (lit "#AI #SME")).
Proof.
  destruct (parse_hashtags_result_shape Json.loads str_of_scalar
              embedded_example (lit "#AI #SME"))
    as [[Hraw _]|(_ & _ & Htok)].
  - vm_compute. reflexivity.
  - exfalso. vm_compute in Hraw. discriminate Hraw.
  - split; [vm_compute; reflexivity | exact Htok].
Defined.

(** X6.  Whatever [_parse_hashtags] returns on a text has no white space
    at either end: stripping the result again changes nothing. *)
Theorem parse_hashtags_trimmed (loads : str -> option pyval)
    (so : pyval -> result str) (raw r : str) :
  _parse_hashtags loads so (PyStr raw) = Ok r -> strip r = r.
Proof.
  intros H. apply parse_hashtags_returns in H as [[-> _]|[payload H]].
  - apply strip_idempotent.
  - apply tags_of_payload_returns in H as (toks & -> & _ & _ & Htrim).
    destruct toks as [|t toks]; [reflexivity|].
    apply trimmed_strip. apply join_trimmed. assumption.
Qed.

Lemma parse_hashtags_trimmed_witness :
  strip (lit "plain prose") = lit "plain prose".
Proof.
  apply (parse_hashtags_trimmed Json.loads str_of_scalar
           (lit " plain prose ") (lit "plain prose")).
  vm_compute. reflexivity.
Defined.

Lemma normalize_tags_app (a b : list str) :
  normalize_tags (a ++ b) = normalize_tags a ++ normalize_tags b.
Proof.
  induction a as [|t a IH]; simpl; [reflexivity|].
  destruct (clean_tag t); rewrite IH; reflexivity.
Qed.

(** X7.  Tags that come after the tenth tag that is not blank do not
    change the result: a payload whose list of strings goes on after ten
    such tags gives what the payload with the list cut there gives. *)
Theorem tags_past_ten_ignored (so : pyval -> result str) (d d' : dict)
    (tags more : list str) :
  dict_lookup d (lit "hashtags") = Some (PyList (map PyStr tags)) ->
  dict_lookup d' (lit "hashtags") = Some (PyList (map PyStr (tags ++ more))) ->
  (10 <= length (normalize_tags tags))%nat ->
  tags_of_payload so (PyDict d') = tags_of_payload so (PyDict d).
Proof.
  intros Hd Hd' Hten.
  rewrite (tags_of_schema_payload so d tags Hd).
  rewrite (tags_of_schema_payload so d' (tags ++ more) Hd').
  rewrite normalize_tags_app, take_app_le by assumption. reflexivity.
Qed.

Lemma tags_past_ten_ignored_witness :
  tags_of_payload str_of_scalar
    (PyDict [(lit "hashtags", PyList (map PyStr (ten_tags ++ [lit "k"; lit "l"])))])
  = Ok (lit "#a #b #c #d #e #f #g #h #i #j").
Proof.
  rewrite (tags_past_ten_ignored str_of_scalar
             [(lit "hashtags", PyList (map PyStr ten_tags))]
             [(lit "hashtags", PyList (map PyStr (ten_tags ++ [lit "k"; lit "l"])))]
             ten_tags [lit "k"; lit "l"]).
  - vm_compute. reflexivity.
  - reflexivity.
  - reflexivity.
  - vm_compute. lia.
Defined.

(** ** More on [generate_hashtags] *)

(** X8.  [generate_hashtags] raises an exception exactly when the
    completion client raises it or [_parse_hashtags] raises it on the
    [content] of the completion result; nothing is caught, and no metadata
    is returned then. *)
Theorem generate_hashtags_raises (loads : str -> option pyval)
    (so : pyval -> result str)
    (completion : list pyval -> dict -> result dict)
    (post topic business_objective : str) (config : dict) (e : exn) :
  generate_hashtags loads so completion post topic business_objective config
  = Raise e
  <-> (completion (hashtag_messages post topic business_objective) config
       = Raise e
       \/ exists llm_result,
           completion (hashtag_messages post topic business_objective) config
           = Ok llm_result
           /\ _parse_hashtags loads so
                (dict_get llm_result (lit "content") (PyStr []))
              = Raise e).
Proof.
  unfold generate_hashtags.
  destruct (completion _ config) as [llm_result|e0]; cbn [bind_result].
  - destruct (_parse_hashtags loads so _) as [h|e1] eqn:E; cbn [bind_result].
    + split; [discriminate|].
      intros [H|(r & [= <-] & H)]; [discriminate|]. congruence.
    + split.
      * intros [= <-]. right. eauto.
      * intros [H|(r & [= <-] & H)]; [discriminate|]. congruence.
  - split.
    + intros [= <-]. left. reflexivity.
    + intros [[= <-]|(r & H & _)]; [reflexivity | discriminate].
Qed.

(** X9.  Whenever [generate_hashtags] returns, also when the hashtags are
    the raw text of the fallback, the completion client had returned a
    result, the hashtags are what [_parse_hashtags] makes of its [content],
    and the metadata is the one entry [llm]: a dict of the six keys, in
    order, each with the value the completion result holds for it, or else
    its default ([None] for [model], [attempts] and [error], an empty dict
    for [usage] and [length], [0.0] for [estimated_cost_usd]).  The
    [content] is not among them. *)
Theorem generate_hashtags_metadata (loads : str -> option pyval)
    (so : pyval -> result str)
    (completion : list pyval -> dict -> result dict)
    (post topic business_objective : str) (config : dict)
    (hashtags : str) (meta : dict) :
  generate_hashtags loads so completion post topic business_objective config
  = Ok (hashtags, meta) ->
  exists llm_result entry,
    completion (hashtag_messages post topic business_objective) config
    = Ok llm_result /\
    _parse_hashtags loads so (dict_get llm_result (lit "content") (PyStr []))
    = Ok hashtags /\
    meta = [ (lit "llm", PyDict entry) ] /\
    map fst entry = llm_keys /\
    dict_lookup entry (lit "content") = None /\
    Forall (fun '(key, default) =>
              dict_lookup entry key
              = Some match dict_lookup llm_result key with
                     | Some v => v
                     | None => default
                     end)
      [ (lit "model", PyNone); (lit "attempts", PyNone);
        (lit "usage", PyDict []); (lit "length", PyDict []);
        (lit "estimated_cost_usd", PyFloat float_zero);
        (lit "error", PyNone) ].
Proof.
  unfold generate_hashtags.
  destruct (completion _ config) as [llm_result|e]; cbn [bind_result];
    [|discriminate].
  destruct (_parse_hashtags loads so _) as [h|e] eqn:E; cbn [bind_result];
    [|discriminate].
  intros [= <- <-]. exists llm_result, (llm_entry llm_result).
  split; [reflexivity|]. split; [exact E|]. split; [reflexivity|].
  split; [reflexivity|]. split; [reflexivity|].
  repeat constructor.
Qed.

Lemma generate_hashtags_metadata_witness :
  exists entry,
    generate_hashtags Json.loads str_of_scalar
      (fun _ _ => Ok completion_with_prose)
      (lit "A post") (lit "AI") (lit "leads") []
    = Ok (lit "Sorry, I cannot help.", [ (lit "llm", PyDict entry) ])
    /\ dict_lookup entry (lit "attempts") = Some (PyInt 2)
    /\ dict_lookup entry (lit "usage") = Some (PyDict []).
Proof.
  assert (Hrun :
            generate_hashtags Json.loads str_of_scalar
              (fun _ _ => Ok completion_with_prose)
              (lit "A post") (lit "AI") (lit "leads") []
            = Ok (lit "Sorry, I cannot help.",
                  [ (lit "llm", PyDict (llm_entry completion_with_prose)) ]))
    by (vm_compute; reflexivity).
  destruct (generate_hashtags_metadata _ _ _ _ _ _ _ _ _ Hrun)
    as (llm_result & entry & Hcall & _ & Hmeta & _ & _ & Hall).
  injection Hcall as <-. injection Hmeta as <-.
  exists (llm_entry completion_with_prose).
  split; [exact Hrun|]. split; reflexivity.
Defined.

(** ** More on [generate_post_image] *)

(** The credential step returns the credential and leaves the world. *)
Lemma api_key_step_of (config : dict) (w : World) :
  (if truthy (dict_get config (lit "api_key") PyNone)
   then ret (dict_get config (lit "api_key") PyNone)
   else getenv (lit "OPENAI_API_KEY")) w
  = (w, Ok (api_key_of config w)).
Proof.
  unfold api_key_of, py_or.
  destruct (truthy (dict_get config (lit "api_key") PyNone)); reflexivity.
Qed.

(** With a credential, a timeout that converts and a client that is
    built, the operation is the guarded block with its handler. *)
Lemma generate_post_image_enters (P : Platform) (w : World)
    (post topic : str) (config : dict) (timeout : spec_float) :
  truthy (api_key_of config w) = true ->
  py_float P (dict_get config (lit "timeout") (PyInt 60)) = Ok timeout ->
  openai_init P (api_key_of config w) timeout = None ->
  generate_post_image P post topic config w
  = match image_attempt P
            {| client_api_key := api_key_of config w;
               client_timeout := timeout |}
            (image_prompt post topic) (image_model_of config)
            (image_size_of config) w with
    | (w', Ok a) => (w', Ok a)
    | (w', Raise exc) =>
        (w', Ok (None, caught_metadata (exn_text exc) config))
    end.
Proof.
  intros Hkey Hfloat Hinit.
  unfold generate_post_image. unfold bind at 1.
  rewrite api_key_step_of, Hkey. cbn [negb].
  unfold OpenAI, try_except, bind, lift, ret, raise.
  rewrite Hfloat, Hinit. reflexivity.
Qed.

(** X10.  A credential that is false counts as missing: when the
    [api_key] of the config is absent or false (for one, the empty string)
    and [OPENAI_API_KEY] is unset or empty, [generate_post_image] returns
    the credential error and leaves the world as it is. *)
Theorem generate_post_image_false_credential (P : Platform) (w : World)
    (post topic : str) (config : dict) :
  truthy (dict_get config (lit "api_key") PyNone) = false ->
  environ w !! lit "OPENAI_API_KEY" = None
  \/ environ w !! lit "OPENAI_API_KEY" = Some [] ->
  generate_post_image P post topic config w
  = (w, Ok (None, [ (lit "error", PyStr (lit "OPENAI_API_KEY not set")) ])).
Proof.
  intros Hconfig Henv.
  unfold generate_post_image. unfold bind at 1.
  rewrite api_key_step_of. unfold api_key_of, py_or. rewrite Hconfig.
  destruct Henv as [-> | ->]; reflexivity.
Qed.

Lemma generate_post_image_false_credential_witness :
  generate_post_image example_platform (lit "A post") (lit "AI")
    [ (lit "api_key", PyStr []) ] empty_key_world
  = (empty_key_world,
     Ok (None, [ (lit "error", PyStr (lit "OPENAI_API_KEY not set")) ])).
Proof.
  apply (generate_post_image_false_credential example_platform empty_key_world
           (lit "A post") (lit "AI") [ (lit "api_key", PyStr []) ]).
  - reflexivity.
  - right. vm_compute. reflexivity.
Defined.

(** X11.  With a credential, an exception of the conversion of the
    timeout or of the constructor of the client reaches the caller, and the
    world is as before: no request was sent and no file written. *)
Theorem generate_post_image_raises_early (P : Platform) (w : World)
    (post topic : str) (config : dict) (e : exn) :
  truthy (api_key_of config w) = true ->
  py_float P (dict_get config (lit "timeout") (PyInt 60)) = Raise e
  \/ (exists timeout,
        py_float P (dict_get config (lit "timeout") (PyInt 60)) = Ok timeout
        /\ openai_init P (api_key_of config w) timeout = Some e) ->
  generate_post_image P post topic config w = (w, Raise e).
Proof.
  intros Hkey Hearly.
  unfold generate_post_image. unfold bind at 1.
  rewrite api_key_step_of, Hkey. cbn [negb].
  unfold OpenAI, try_except, bind, lift, ret, raise.
  destruct Hearly as [-> | (timeout & -> & ->)]; reflexivity.
Qed.

Lemma generate_post_image_raises_early_witness :
  generate_post_image refusing_platform (lit "A post") (lit "AI") []
    env_key_world
  = (env_key_world, Raise (Exception "OpenAIError" (lit "client refused"))).
Proof.
  apply (generate_post_image_raises_early refusing_platform env_key_world
           (lit "A post") (lit "AI") []).
  - vm_compute. reflexivity.
  - right. eexists. split; [vm_compute; reflexivity | reflexivity].
Defined.

(** X12.  When the image service raises, [generate_post_image] returns no
    path and the metadata of the [except] branch: the text of the
    exception under [error], then the model and the size.  The request is
    on record and no file is written. *)
Theorem generate_post_image_service_error (P : Platform) (w : World)
    (post topic : str) (config : dict) (timeout : spec_float) (exc : exn) :
  truthy (api_key_of config w) = true ->
  py_float P (dict_get config (lit "timeout") (PyInt 60)) = Ok timeout ->
  openai_init P (api_key_of config w) timeout = None ->
  images_generate P
    {| client_api_key := api_key_of config w; client_timeout := timeout |}
    (image_request post topic config) = Raise exc ->
  generate_post_image P post topic config w
  = (after_request w (image_request post topic config),
     Ok (None, caught_metadata (exn_text exc) config)).
Proof.
  intros Hkey Hfloat Hinit Hgen.
  rewrite (generate_post_image_enters P w post topic config timeout)
    by assumption.
  unfold image_attempt, client_images_generate, bind.
  fold (image_request post topic config). rewrite Hgen. reflexivity.
Qed.

Lemma generate_post_image_service_error_witness :
  generate_post_image
    (service_platform (Raise (Exception "RateLimitError" (lit "quota exceeded"))))
    (lit "A post") (lit "AI") config_with_key example_world
  = (after_request example_world
       (image_request (lit "A post") (lit "AI") config_with_key),
     Ok (None, [ (lit "error", PyStr (lit "quota exceeded"));
                 (lit "model", PyStr (lit "gpt-image-1"));
                 (lit "size", PyStr (lit "1024x1024")) ])).
Proof.
  apply (generate_post_image_service_error
           (service_platform
              (Raise (Exception "RateLimitError" (lit "quota exceeded"))))
           example_world (lit "A post") (lit "AI") config_with_key
           (S754_finite false 8444249301319680 (-47))
           (Exception "RateLimitError" (lit "quota exceeded"))).
  - reflexivity.
  - vm_compute. reflexivity.
  - reflexivity.
  - reflexivity.
Defined.

(** X13.  When the image service answers with no item, [data] being an
    empty list or [None], the subscript [data[0]] raises inside the guarded
    block: [generate_post_image] returns no path, with the text of the
    [IndexError] or of the [TypeError] under [error], and writes no file. *)
Theorem generate_post_image_no_item (P : Platform) (w : World)
    (post topic : str) (config : dict) (timeout : spec_float)
    (response : ImagesResponse) :
  truthy (api_key_of config w) = true ->
  py_float P (dict_get config (lit "timeout") (PyInt 60)) = Ok timeout ->
  openai_init P (api_key_of config w) timeout = None ->
  images_generate P
    {| client_api_key := api_key_of config w; client_timeout := timeout |}
    (image_request post topic config) = Ok response ->
  data response = Some [] \/ data response = None ->
  generate_post_image P post topic config w
  = (after_request w (image_request post topic config),
     Ok (None,
         caught_metadata
           match data response with
           | Some _ => lit "list index out of range"
           | None => lit "'NoneType' object is not subscriptable"
           end config)).
Proof.
  intros Hkey Hfloat Hinit Hgen Hdata.
  rewrite (generate_post_image_enters P w post topic config timeout)
    by assumption.
  unfold image_attempt, client_images_generate, bind, lift.
  fold (image_request post topic config). rewrite Hgen.
  destruct Hdata as [-> | ->]; reflexivity.
Qed.

Lemma generate_post_image_no_item_witness :
  generate_post_image (service_platform (Ok {| data := Some [] |}))
    (lit "A post") (lit "AI") config_with_key example_world
  = (after_request example_world
       (image_request (lit "A post") (lit "AI") config_with_key),
     Ok (None, [ (lit "error", PyStr (lit "list index out of range"));
                 (lit "model", PyStr (lit "gpt-image-1"));
                 (lit "size", PyStr (lit "1024x1024")) ])).
Proof.
  apply (generate_post_image_no_item
           (service_platform (Ok {| data := Some [] |}))
           example_world (lit "A post") (lit "AI") config_with_key
           (S754_finite false 8444249301319680 (-47))
           {| data := Some [] |}).
  - reflexivity.
  - vm_compute. reflexivity.
  - reflexivity.
  - reflexivity.
  - left. reflexivity.
Defined.

(** X14.  When the first item of the answer has no [b64_json], or an empty
    one, [generate_post_image] returns no path and a metadata with the
    fixed message under [error] and the model, and no [size]; no file is
    written. *)
Theorem generate_post_image_missing_payload (P : Platform) (w : World)
    (post topic : str) (config : dict) (timeout : spec_float)
    (response : ImagesResponse) (item : Image) (others : list Image) :
  truthy (api_key_of config w) = true ->
  py_float P (dict_get config (lit "timeout") (PyInt 60)) = Ok timeout ->
  openai_init P (api_key_of config w) timeout = None ->
  images_generate P
    {| client_api_key := api_key_of config w; client_timeout := timeout |}
    (image_request post topic config) = Ok response ->
  data response = Some (item :: others) ->
  b64_json item = None \/ b64_json item = Some [] ->
  generate_post_image P post topic config w
  = (after_request w (image_request post topic config),
     Ok (None,
         [ (lit "error", PyStr (lit "Image response missing b64_json"));
           (lit "model", image_model_of config) ])).
Proof.
  intros Hkey Hfloat Hinit Hgen Hdata Hb64.
  rewrite (generate_post_image_enters P w post topic config timeout)
    by assumption.
  unfold image_attempt, client_images_generate, bind, lift, ret.
  fold (image_request post topic config). rewrite Hgen, Hdata.
  cbn [first_item]. destruct Hb64 as [-> | ->]; reflexivity.
Qed.

Lemma generate_post_image_missing_payload_witness :
  generate_post_image
    (service_platform (Ok {| data := Some [ {| b64_json := None |} ] |}))
    (lit "A post") (lit "AI") config_with_key example_world
  = (after_request example_world
       (image_request (lit "A post") (lit "AI") config_with_key),
     Ok (None,
         [ (lit "error", PyStr (lit "Image response missing b64_json"));
           (lit "model", PyStr (lit "gpt-image-1")) ])).
Proof.
  apply (generate_post_image_missing_payload
           (service_platform (Ok {| data := Some [ {| b64_json := None |} ] |}))
           example_world (lit "A post") (lit "AI") config_with_key
           (S754_finite false 8444249301319680 (-47))
           {| data := Some [ {| b64_json := None |} ] |}
           {| b64_json := None |} []).
  - reflexivity.
  - vm_compute. reflexivity.
  - reflexivity.
  - reflexivity.
  - reflexivity.
  - left. reflexivity.
Defined.

(** X15.  When the payload does not decode, [generate_post_image] returns
    no path, with the text of the decoder's exception under [error], and
    creates no file. *)
Theorem generate_post_image_decode_error (P : Platform) (w : World)
    (post topic : str) (config : dict) (timeout : spec_float)
    (response : ImagesResponse) (item : Image) (others : list Image)
    (c : N) (payload : str) (exc : exn) :
  truthy (api_key_of config w) = true ->
  py_float P (dict_get config (lit "timeout") (PyInt 60)) = Ok timeout ->
  openai_init P (api_key_of config w) timeout = None ->
  images_generate P
    {| client_api_key := api_key_of config w; client_timeout := timeout |}
    (image_request post topic config) = Ok response ->
  data response = Some (item :: others) ->
  b64_json item = Some (c :: payload) ->
  b64decode P (c :: payload) = Raise exc ->
  generate_post_image P post topic config w
  = (after_request w (image_request post topic config),
     Ok (None, caught_metadata (exn_text exc) config)).
Proof.
  intros Hkey Hfloat Hinit Hgen Hdata Hb64 Hdec.
  rewrite (generate_post_image_enters P w post topic config timeout)
    by assumption.
  unfold image_attempt, client_images_generate, bind, lift, ret.
  fold (image_request post topic config). rewrite Hgen, Hdata.
  cbn [first_item]. rewrite Hb64, Hdec. reflexivity.
Qed.

Lemma generate_post_image_decode_error_witness :
  generate_post_image
    (service_platform (Ok {| data := Some [ {| b64_json := Some (lit "aGk") |} ] |}))
    (lit "A post") (lit "AI") config_with_key example_world
  = (after_request example_world
       (image_request (lit "A post") (lit "AI") config_with_key),
     Ok (None, [ (lit "error", PyStr (lit "Incorrect padding"));
                 (lit "model", PyStr (lit "gpt-image-1"));
                 (lit "size", PyStr (lit "1024x1024")) ])).
Proof.
  apply (generate_post_image_decode_error
           (service_platform
              (Ok {| data := Some [ {| b64_json := Some (lit "aGk") |} ] |}))
           example_world (lit "A post") (lit "AI") config_with_key
           (S754_finite false 8444249301319680 (-47))
           {| data := Some [ {| b64_json := Some (lit "aGk") |} ] |}
           {| b64_json := Some (lit "aGk") |} []
           97%N (lit "Gk")
           (Exception "binascii.Error" (lit "Incorrect padding"))).
  - reflexivity.
  - vm_compute. reflexivity.
  - reflexivity.
  - reflexivity.
  - reflexivity.
  - reflexivity.
  - vm_compute. reflexivity.
Defined.

(** X16.  When the write to the temporary file fails, [generate_post_image]
    returns no path, with the text of the exception under [error], and the
    file stays behind with the bytes that reached it: the operation does
    not remove what it created. *)
Theorem generate_post_image_write_error (P : Platform) (w : World)
    (post topic : str) (config : dict) (timeout : spec_float)
    (response : ImagesResponse) (item : Image) (others : list Image)
    (c : N) (payload : str) (image_bytes : bytes) (path : str)
    (exc : exn) (written : nat) :
  truthy (api_key_of config w) = true ->
  py_float P (dict_get config (lit "timeout") (PyInt 60)) = Ok timeout ->
  openai_init P (api_key_of config w) timeout = None ->
  images_generate P
    {| client_api_key := api_key_of config w; client_timeout := timeout |}
    (image_request post topic config) = Ok response ->
  data response = Some (item :: others) ->
  b64_json item = Some (c :: payload) ->
  b64decode P (c :: payload) = Ok image_bytes ->
  mkstemp_inner P (files w) (gettempdir P) (lit "pbcg_") (lit ".png")
    (random_names P) = Ok path ->
  write_error P path image_bytes = Some (exc, written) ->
  generate_post_image P post topic config w
  = ({| environ := environ w;
        files := <[path := firstn written image_bytes]> (files w);
        requests := requests w ++ [image_request post topic config] |},
     Ok (None, caught_metadata (exn_text exc) config)).
Proof.
  intros Hkey Hfloat Hinit Hgen Hdata Hb64 Hdec Hname Hwrite.
  rewrite (generate_post_image_enters P w post topic config timeout)
    by assumption.
  unfold_image. fold (image_request post topic config).
  rewrite Hgen, Hdata. cbn [first_item]. rewrite Hb64, Hdec. cbn [files].
  rewrite Hname, Hwrite. reflexivity.
Qed.

Lemma generate_post_image_write_error_witness :
  exists w',
    generate_post_image full_disk_platform (lit "A post") (lit "AI")
      config_with_key example_world
    = (w', Ok (None,
               [ (lit "error", PyStr (lit "[Errno 28] No space left on device"));
                 (lit "model", PyStr (lit "gpt-image-1"));
                 (lit "size", PyStr (lit "1024x1024")) ]))
    /\ files w' !! example_path = Some [104%N].
Proof.
  eexists. split.
  - apply (generate_post_image_write_error full_disk_platform example_world
             (lit "A post") (lit "AI") config_with_key
             (S754_finite false 8444249301319680 (-47))
             {| data := Some [ {| b64_json := Some (lit "aGk=") |} ] |}
             {| b64_json := Some (lit "aGk=") |} []
             97%N (lit "Gk=") [104; 105]%N example_path
             (Exception "OSError" (lit "[Errno 28] No space left on device"))
             1%nat).
    + reflexivity.
    + vm_compute. reflexivity.
    + reflexivity.
    + reflexivity.
    + reflexivity.
    + reflexivity.
    + vm_compute. reflexivity.
    + vm_compute. reflexivity.
    + reflexivity.
  - cbn [files]. apply lookup_insert_eq.
Defined.

(** ** What [generate_post_image] does to the world, in every case *)

(** The guarded block sends the request and creates at most one file, at a
    path that was free. *)
Lemma image_attempt_world (P : Platform) (client : Client) (prompt : str)
    (image_model image_size : pyval) (w w' : World)
    (r : result (option str * dict)) :
  image_attempt P client prompt image_model image_size w = (w', r) ->
  environ w' = environ w /\
  requests w'
  = requests w ++ [ {| req_model := image_model; req_prompt := prompt;
                       req_size := image_size |} ] /\
  (files w' = files w \/
   exists path content,
     files w !! path = None /\ files w' = <[path := content]> (files w)).
Proof.
  intros H. unfold_image.
  repeat (next_case; try discriminate);
    repeat match goal with
      | H : (_, _) = (_, _) |- _ => injection H as ? ?; subst
      end;
    cbn [environ requests files];
    (split; [reflexivity|]; split; [reflexivity|]);
    try (left; reflexivity).
  all: match goal with
       | H : mkstemp_inner _ _ _ _ _ _ = Ok _ |- _ =>
           apply mkstemp_inner_ok in H as (name & _ & _ & Hfree)
       end.
  all: right; eauto.
Qed.

(** The world after [generate_post_image], however it ends: same
    environment; the requests as before or with the one request added; the
    files as before or with one file added at a path that was free. *)
Lemma generate_post_image_world (P : Platform) (w w' : World)
    (post topic : str) (config : dict) (r : result (option str * dict)) :
  generate_post_image P post topic config w = (w', r) ->
  environ w' = environ w /\
  (requests w' = requests w
   \/ requests w' = requests w ++ [image_request post topic config]) /\
  (files w' = files w \/
   exists path content,
     files w !! path = None /\ files w' = <[path := content]> (files w)).
Proof.
  unfold generate_post_image. unfold bind at 1.
  rewrite api_key_step_of.
  unfold OpenAI, try_except, bind, lift, ret, raise.
  destruct (truthy (api_key_of config w)); cbn [negb].
  2:{ intros [= <- _]. auto. }
  destruct (py_float P _) as [timeout|e]; [|intros [= <- _]; auto].
  destruct (openai_init P _ timeout) as [e|]; [intros [= <- _]; auto|].
  match goal with
  | |- context [image_attempt P ?c ?p ?m ?s w] =>
      destruct (image_attempt P c p m s w) as [w1 r1] eqn:Erun
  end.
  apply image_attempt_world in Erun as (Henv & Hreq & Hfiles).
  destruct r1 as [a|exc]; intros [= <- _]; auto.
Qed.

(** X17.  [generate_post_image] never changes or removes a file that
    exists: after it, in every case, each file that was there holds what it
    held, and at most one file is new. *)
Theorem generate_post_image_keeps_files (P : Platform) (w : World)
    (post topic : str) (config : dict) :
  let w' := fst (generate_post_image P post topic config w) in
  (forall path content,
     files w !! path = Some content -> files w' !! path = Some content) /\
  (forall p q,
     files w !! p = None -> files w !! q = None ->
     is_Some (files w' !! p) -> is_Some (files w' !! q) -> p = q).
Proof.
  cbv zeta.
  destruct (generate_post_image P post topic config w) as [w' r] eqn:Erun.
  cbn [fst].
  destruct (generate_post_image_world P w w' post topic config r Erun)
    as (_ & _ & [-> | (new & content & Hfree & ->)]).
  - split; [auto|]. intros p q Hp _ [x Hx] _. congruence.
  - split.
    + intros path c Hpath. rewrite lookup_insert_ne; [exact Hpath|].
      congruence.
    + intros p q Hp Hq [x Hx] [y Hy].
      destruct (decide (new = p)) as [<-|Hnp];
        destruct (decide (new = q)) as [<-|Hnq]; try reflexivity.
      * rewrite lookup_insert_ne in Hy by assumption. congruence.
      * rewrite lookup_insert_ne in Hx by assumption. congruence.
      * rewrite lookup_insert_ne in Hx by assumption. congruence.
Qed.

(** X18.  [generate_post_image] leaves the environment as it is and calls
    the image service at most once: the requests on record afterwards are
    those before, or those and one more, which carries the model and the
    size of the config (or their defaults, [gpt-image-1] and [1024x1024])
    and the prompt built from the topic and the post. *)
Theorem generate_post_image_one_request (P : Platform) (w : World)
    (post topic : str) (config : dict) :
  let w' := fst (generate_post_image P post topic config w) in
  environ w' = environ w /\
  (requests w' = requests w
   \/ requests w'
      = requests w
          ++ [ {| req_model :=
                    dict_get config (lit "image_model")
                      (PyStr (lit "gpt-image-1"));
                  req_prompt := image_prompt post topic;
                  req_size :=
                    dict_get config (lit "image_size")
                      (PyStr (lit "1024x1024")) |} ]).
Proof.
  cbv zeta.
  destruct (generate_post_image P post topic config w) as [w' r] eqn:Erun.
  cbn [fst].
  destruct (generate_post_image_world P w w' post topic config r Erun)
    as (Henv & Hreq & _).
  split; [exact Henv | exact Hreq].
Qed.

(** The metadata [generate_post_image] returns is one of four. *)
Lemma generate_post_image_metadata (P : Platform) (w w' : World)
    (post topic : str) (config : dict) (r : option str) (meta : dict) :
  generate_post_image P post topic config w = (w', Ok (r, meta)) ->
  (r = None /\
   (meta = [ (lit "error", PyStr (lit "OPENAI_API_KEY not set")) ]
    \/ meta = [ (lit "error", PyStr (lit "Image response missing b64_json"));
                (lit "model", image_model_of config) ]
    \/ exists text, meta = caught_metadata text config))
  \/ (exists path,
        r = Some path /\
        meta = [ (lit "model", image_model_of config);
                 (lit "size", image_size_of config);
                 (lit "path", PyStr path) ]).
Proof.
  unfold generate_post_image. unfold bind at 1.
  rewrite api_key_step_of.
  unfold OpenAI, try_except, bind, lift, ret, raise.
  destruct (truthy (api_key_of config w)); cbn [negb].
  2:{ intros [= <- <- <-]. left. auto. }
  destruct (py_float P _) as [timeout|e]; [|discriminate].
  destruct (openai_init P _ timeout) as [e|]; [discriminate|].
  match goal with
  | |- context [image_attempt P ?c ?p ?m ?s w] =>
      destruct (image_attempt P c p m s w) as [w1 [[r1 meta1]|exc]] eqn:Erun
  end.
  - intros [= <- <- <-]. apply image_attempt_returns in Erun.
    destruct r1 as [path|]; subst meta1.
    + right. eauto.
    + left. auto.
  - intros [= <- <- <-]. left. split; [reflexivity|].
    right. right. eexists. reflexivity.
Qed.

(** X19.  Result and metadata agree: whenever [generate_post_image]
    returns, the metadata has a [path] exactly when a path is returned, and
    then that path; and it has an [error] exactly when none is. *)
Theorem generate_post_image_keys (P : Platform) (w w' : World)
    (post topic : str) (config : dict) (r : option str) (meta : dict) :
  generate_post_image P post topic config w = (w', Ok (r, meta)) ->
  dict_lookup meta (lit "path") = PyStr <$> r /\
  (r = None <-> is_Some (dict_lookup meta (lit "error"))).
Proof.
  intros H. apply generate_post_image_metadata in H
    as [[-> [-> | [-> | [text ->]]]] | (path & -> & ->)].
  - split; [reflexivity|]. split; [eauto | reflexivity].
  - split; [reflexivity|]. split; [eauto | reflexivity].
  - split; [reflexivity|]. split; [eauto | reflexivity].
  - split; [reflexivity|]. split; [discriminate|].
    intros [x Hx]. discriminate Hx.
Qed.

Lemma generate_post_image_keys_witness :
  dict_lookup
    [ (lit "error", PyStr (lit "OPENAI_API_KEY not set")) ] (lit "path")
  = None.
Proof.
  apply (generate_post_image_keys example_platform example_world example_world
           (lit "A post") (lit "AI") [] None).
  vm_compute. reflexivity.
Defined.

(** ** The credential of the environment *)

Lemma str_eqb_eq (a b : str) : str_eqb a b = true <-> a = b.
Proof. apply bool_decide_eq_true. Qed.

(** Insert, then look up. *)
Lemma dict_lookup_set (d : dict) (key key' : str) (v : pyval) :
  dict_lookup (dict_set d key v) key'
  = if str_eqb key key' then Some v else dict_lookup d key'.
Proof.
  induction d as [|[k v0] d IH]; simpl; [reflexivity|].
  destruct (str_eqb k key) eqn:Ek; simpl.
  - apply str_eqb_eq in Ek. subst k.
    destruct (str_eqb key key'); reflexivity.
  - destruct (str_eqb k key') eqn:Ek'; [|exact IH].
    destruct (str_eqb key key') eqn:E; [|reflexivity].
    apply str_eqb_eq in Ek', E. subst.
    rewrite (proj2 (str_eqb_eq _ _) eq_refl) in Ek. discriminate Ek.
Qed.

Lemma dict_get_set_other (d : dict) (key key' : str) (v default : pyval) :
  key <> key' ->
  dict_get (dict_set d key v) key' default = dict_get d key' default.
Proof.
  intros Hne. unfold dict_get. rewrite dict_lookup_set. unfold str_eqb.
  rewrite bool_decide_eq_false_2 by assumption. reflexivity.
Qed.

(** The steps of [generate_post_image], on the credential it settles on. *)
Lemma generate_post_image_steps (P : Platform) (w : World)
    (post topic : str) (config : dict) :
  generate_post_image P post topic config w
  = if negb (truthy (api_key_of config w))
    then (w, Ok (None, [ (lit "error", PyStr (lit "OPENAI_API_KEY not set")) ]))
    else
      match py_float P (dict_get config (lit "timeout") (PyInt 60)) with
      | Raise e => (w, Raise e)
      | Ok timeout =>
          match openai_init P (api_key_of config w) timeout with
          | Some e => (w, Raise e)
          | None =>
              match image_attempt P
                      {| client_api_key := api_key_of config w;
                         client_timeout := timeout |}
                      (image_prompt post topic) (image_model_of config)
                      (image_size_of config) w with
              | (w', Ok a) => (w', Ok a)
              | (w', Raise exc) =>
                  (w', Ok (None, caught_metadata (exn_text exc) config))
              end
          end
      end.
Proof.
  unfold generate_post_image. unfold bind at 1.
  rewrite api_key_step_of.
  unfold OpenAI, try_except, bind, lift, ret, raise.
  destruct (truthy (api_key_of config w)); cbn [negb]; [|reflexivity].
  destruct (py_float P _) as [timeout|e]; [|reflexivity].
  destruct (openai_init P _ timeout); reflexivity.
Qed.

(** X20.  The credential of the environment stands in for a missing one
    of the config: when the [api_key] of the config is absent or false and
    [OPENAI_API_KEY] is set, [generate_post_image] does what it does on the
    config with that value stored under [api_key]. *)
Theorem generate_post_image_env_credential (P : Platform) (w : World)
    (post topic : str) (config : dict) (key : str) :
  truthy (dict_get config (lit "api_key") PyNone) = false ->
  environ w !! lit "OPENAI_API_KEY" = Some key ->
  generate_post_image P post topic config w
  = generate_post_image P post topic
      (dict_set config (lit "api_key") (PyStr key)) w.
Proof.
  intros Hconfig Henv.
  assert (Hkey : api_key_of (dict_set config (lit "api_key") (PyStr key)) w
                 = api_key_of config w).
  { unfold api_key_of, py_or, dict_get at 1 2. rewrite dict_lookup_set.
    unfold str_eqb. rewrite bool_decide_eq_true_2 by reflexivity.
    rewrite Hconfig, Henv. destruct (truthy (PyStr key)); reflexivity. }
  rewrite !generate_post_image_steps, Hkey.
  unfold caught_metadata, image_model_of, image_size_of.
  rewrite !dict_get_set_other by (vm_compute; discriminate).
  reflexivity.
Qed.

Lemma generate_post_image_env_credential_witness :
  generate_post_image example_platform (lit "A post") (lit "AI") []
    env_key_world
  = generate_post_image example_platform (lit "A post") (lit "AI")
      [ (lit "api_key", PyStr (lit "sk-env")) ] env_key_world.
Proof.
  apply (generate_post_image_env_credential example_platform env_key_world
           (lit "A post") (lit "AI") [] (lit "sk-env")).
  - reflexivity.
  - vm_compute. reflexivity.
Defined.
